(** * Differential Evolution kernel of DEHB: [src/dehb/optimizers/de.py]

    A shallow embedding of the classes [DEBase], [DE] and [AsyncDE].

    - numpy [float64] values are Rocq's primitive binary64 floats, so that
      every arithmetic step and every comparison is the one the code runs;
    - Python exceptions are the error side of the monad [res];
    - an object ([self]) is a record that every method threads explicitly;
    - [self.population] is a two-dimensional array whose rows are handed
      out as views: a reference [ndref] is either such a row or an array
      of its own, and a write through a row reaches the population;
    - numpy's generator, ConfigSpace's sampler and [np.log]/[np.exp] are
      libraries outside the repository: they are the fields of
      [Externals], over which every definition is parametric. *)

From Stdlib Require Import ZArith Floats Bool Ascii Lia.
From stdpp Require Import base list strings.

(** ** Python exceptions and the error monad *)

Inductive exn :=
| AssertionError | IndexError | KeyError | ValueError | TypeError
| ZeroDivisionError | NotImplementedError | UnboundLocalError
| AttributeError | OverflowError.

Inductive res (A : Type) :=
| Ok (a : A)
| Raise (e : exn).
Arguments Ok {A} a.
Arguments Raise {A} e.

#[global] Instance res_ret : MRet res := fun A a => Ok a.
#[global] Instance res_bind : MBind res := fun A B k m =>
  match m with Ok a => k a | Raise e => Raise e end.
#[global] Instance res_fmap : FMap res := fun A B g m =>
  match m with Ok a => Ok (g a) | Raise e => Raise e end.

Definition is_ok {A} (m : res A) : bool :=
  match m with Ok _ => true | Raise _ => false end.

(** [assert c], [l[i]] for a non-negative index, and tuple unpacking. *)
Definition assert (c : bool) : res unit :=
  if c then Ok tt else Raise AssertionError.

Definition getitem {A} (l : list A) (i : nat) : res A :=
  match l !! i with Some x => Ok x | None => Raise IndexError end.

(** Python and numpy accept a negative index [i] as [len + i]. *)
Definition py_index (len : nat) (i : Z) : res nat :=
  if (0 <=? i)%Z
  then (if (i <? Z.of_nat len)%Z then Ok (Z.to_nat i) else Raise IndexError)
  else (if (0 <=? Z.of_nat len + i)%Z then Ok (Z.to_nat (Z.of_nat len + i))
        else Raise IndexError).

(** ** binary64 helpers *)

(** A one-dimensional [float64] array. *)
Definition ndarray := list float.

(** Conversion of a Python [int] to [float64] (round to nearest even). *)
Definition float_of_Z (z : Z) : float :=
  SF2Prim (binary_normalize prec emax z 0 false).
Definition float_of_nat (n : nat) : float := float_of_Z (Z.of_nat n).

(** [int(np.round(x))]: round half to even; [int] refuses nan and the
    infinities. *)
Definition round_half_even (m : positive) (e : Z) : Z :=
  if (0 <=? e)%Z then (Z.pos m * 2 ^ e)%Z
  else let d := (2 ^ (- e))%Z in
       let q := (Z.pos m / d)%Z in
       let r := (Z.pos m mod d)%Z in
       match (2 * r ?= d)%Z with
       | Lt => q
       | Gt => (q + 1)%Z
       | Eq => if Z.even q then q else (q + 1)%Z
       end.

Definition int_of_round (x : float) : res Z :=
  match Prim2SF x with
  | S754_zero _ => Ok 0%Z
  | S754_finite s m e =>
      let n := round_half_even m e in Ok (if s then (- n)%Z else n)
  | S754_infinity _ => Raise OverflowError
  | S754_nan => Raise ValueError
  end.

(** [ceil(x)] as an integer, as numpy needs it for the length of [arange]. *)
Definition ceil_Z (x : float) : option Z :=
  match Prim2SF x with
  | S754_zero _ => Some 0%Z
  | S754_finite s m e =>
      if (0 <=? e)%Z
      then Some (if s then (- (Z.pos m * 2 ^ e))%Z else (Z.pos m * 2 ^ e)%Z)
      else let d := (2 ^ (- e))%Z in
           let q := (Z.pos m / d)%Z in
           let r := (Z.pos m mod d)%Z in
           Some (if s then (- q)%Z
                 else if (r =? 0)%Z then q else (q + 1)%Z)
  | _ => None
  end.

(** [float(fidelity or 0)]: [None] and a zero fidelity both give [0.0]. *)
Definition fidelity_or_0 (fidelity : option float) : float :=
  match fidelity with
  | None => 0%float
  | Some x => if (x =? 0)%float then 0%float else x
  end.

(** ** The numpy operations the module calls *)

(** [np.arange(start, stop, step)] on floats: the length is
    [ceil((stop - start) / step)], the first two entries are [start] and
    [start + step], and entry [i >= 2] is [start + i * delta] with
    [delta] the difference of the first two. *)
Definition np_arange (start stop step : float) : res (list float) :=
  match ceil_Z ((stop - start) / step)%float with
  | None => Raise ValueError
  | Some len =>
      let next := (start + step)%float in
      let delta := (next - start)%float in
      Ok (map (fun i : nat =>
                 match i with
                 | O => start
                 | S O => next
                 | _ => (start + float_of_nat i * delta)%float
                 end)
              (seq 0 (Z.to_nat len)))
  end.

(** [np.where((v < ranges) == False)[0][-1]]: the last index whose entry
    is not above [v]; [IndexError] when there is none. *)
Fixpoint last_not_below_from (v : float) (ranges : list float) (i : nat)
    (found : option nat) : option nat :=
  match ranges with
  | [] => found
  | r :: rest =>
      last_not_below_from v rest (S i)
        (if (v <? r)%float then found else Some i)
  end.

Definition last_not_below (v : float) (ranges : list float) : res nat :=
  match last_not_below_from v ranges 0 None with
  | Some i => Ok i
  | None => Raise IndexError
  end.

(** [np.argmin]: the first index of the minimum; a nan is minimal and the
    first one wins; an empty array is refused. *)
Fixpoint argmin_from (mp : float) (mi : nat) (i : nat) (l : list float)
    : nat :=
  match l with
  | [] => mi
  | x :: rest =>
      if negb (mp <=? x)%float
      then (if is_nan x then i else argmin_from x i (S i) rest)
      else argmin_from mp mi (S i) rest
  end.

Definition np_argmin (l : list float) : res nat :=
  match l with
  | [] => Raise ValueError
  | x :: rest => Ok (if is_nan x then 0%nat else argmin_from x 0 1 rest)
  end.

(** [np.max] over the entries selected by an index list. *)
Definition np_maximum (a b : float) : float :=
  if is_nan a then a else if is_nan b then b
  else if (a <? b)%float then b else a.

Definition np_max (l : list float) : res float :=
  match l with
  | [] => Raise ValueError
  | x :: rest => Ok (fold_left np_maximum rest x)
  end.

(** [np.clip(x, 0, 1)]. *)
Definition np_clip01 (x : float) : float :=
  if (x <? 0)%float then 0%float
  else if (1 <? x)%float then 1%float else x.

(** Element-wise arithmetic of arrays of one shape. *)
Fixpoint zip_with_float (op : float → float → float) (a b : ndarray)
    : ndarray :=
  match a, b with
  | x :: a', y :: b' => op x y :: zip_with_float op a' b'
  | _, _ => []
  end.

Definition vadd : ndarray → ndarray → ndarray := zip_with_float PrimFloat.add.
Definition vsub : ndarray → ndarray → ndarray := zip_with_float PrimFloat.sub.
Definition vscale (c : float) (a : ndarray) : ndarray :=
  map (fun x => (c * x)%float) a.
Definition vhalf (a : ndarray) : ndarray := map (fun x => (x / 2)%float) a.

(** [all(a == b)] for two arrays of one shape. *)
Fixpoint all_eq (a b : ndarray) : bool :=
  match a, b with
  | [], [] => true
  | x :: a', y :: b' => (x =? y)%float && all_eq a' b'
  | _, _ => false
  end.

(** ** ConfigSpace: hyperparameters and configurations

    ConfigSpace is a library outside the repository.  The bridge below
    reads a hyperparameter's [name], [sequence], [choices],
    [default_value], [lower], [upper] and [log]; a configuration is the
    dictionary from names to values.  Spaces here carry no conditions, so
    that [impute_inactive_values] and [deactivate_inactive_hyperparameters]
    leave a dictionary as it is. *)

Inductive value :=
| VFloat (x : float)
| VInt (z : Z)
| VStr (s : string).

Definition value_eqb (a b : value) : bool :=
  match a, b with
  | VFloat x, VFloat y => (x =? y)%float
  | VInt x, VInt y => (x =? y)%Z
  | VStr x, VStr y => String.eqb x y
  | VInt x, VFloat y | VFloat y, VInt x => (float_of_Z x =? y)%float
  | _, _ => false
  end.

Inductive hyperparameter :=
| OrdinalHyperparameter (name : string) (sequence : list value)
    (default_value : value)
| CategoricalHyperparameter (name : string) (choices : list value)
    (default_value : value)
| Constant (name : string) (default_value : value)
| UniformFloatHyperparameter (name : string) (lower upper : float)
    (log : bool) (default_value : float)
| UniformIntegerHyperparameter (name : string) (lower upper : Z)
    (log : bool) (default_value : Z).

Definition hp_name (h : hyperparameter) : string :=
  match h with
  | OrdinalHyperparameter n _ _ | CategoricalHyperparameter n _ _
  | Constant n _ | UniformFloatHyperparameter n _ _ _ _
  | UniformIntegerHyperparameter n _ _ _ _ => n
  end.

Definition hp_default (h : hyperparameter) : value :=
  match h with
  | OrdinalHyperparameter _ _ d | CategoricalHyperparameter _ _ d
  | Constant _ d => d
  | UniformFloatHyperparameter _ _ _ _ d => VFloat d
  | UniformIntegerHyperparameter _ _ _ _ d => VInt d
  end.

Definition Configuration := list (string * value).

Record ConfigurationSpace := {
  get_hyperparameters : list hyperparameter
}.

Fixpoint dict_get {V} (d : list (string * V)) (k : string) : res V :=
  match d with
  | [] => Raise KeyError
  | (k', v) :: rest => if String.eqb k k' then Ok v else dict_get rest k
  end.

Fixpoint dict_set {V} (d : list (string * V)) (k : string) (v : V)
    : list (string * V) :=
  match d with
  | [] => [(k, v)]
  | (k', v') :: rest =>
      if String.eqb k k' then (k, v) :: rest else (k', v') :: dict_set rest k v
  end.

Definition get_default_configuration (cs : ConfigurationSpace)
    : Configuration :=
  map (fun h => (hp_name h, hp_default h)) (get_hyperparameters cs).

Fixpoint get_hyperparameter_from (hs : list hyperparameter) (name : string)
    : res hyperparameter :=
  match hs with
  | [] => Raise KeyError
  | h :: rest =>
      if String.eqb name (hp_name h) then Ok h
      else get_hyperparameter_from rest name
  end.

Definition get_hyperparameter (cs : ConfigurationSpace) (name : string)
    : res hyperparameter :=
  get_hyperparameter_from (get_hyperparameters cs) name.

(** [sequence.index(v)]: the first position holding a value equal to [v]. *)
Fixpoint index_from (l : list value) (v : value) (i : nat) : res nat :=
  match l with
  | [] => Raise ValueError
  | x :: rest => if value_eqb x v then Ok i else index_from rest v (S i)
  end.

Definition index_of (l : list value) (v : value) : res nat :=
  index_from l v 0.

(** Python's [i / n] on two [int]s and [x / y] on two [float]s raise on a
    zero divisor. *)
Definition py_div (x y : float) : res float :=
  if (y =? 0)%float then Raise ZeroDivisionError else Ok (x / y)%float.

Definition as_float (v : value) : res float :=
  match v with
  | VFloat x => Ok x
  | VInt z => Ok (float_of_Z z)
  | VStr _ => Raise TypeError
  end.

(** ** The libraries the kernel draws from *)

Record Externals := {
  (** [numpy.random.Generator] *)
  rng_t : Type;
  default_rng : Z → rng_t;
  rng_random : rng_t → float * rng_t;
  rng_integers : rng_t → nat → nat * rng_t;
  rng_choice : rng_t → nat → nat → list nat * rng_t;
  (** the sampler of a [ConfigurationSpace] and its own seeded state *)
  cs_rng_t : Type;
  cs_seed : Z → cs_rng_t;
  cs_sample : ConfigurationSpace → cs_rng_t → Configuration * cs_rng_t;
  (** [np.log] and [np.exp] *)
  np_log : float → float;
  np_exp : float → float
}.

(** [rng.random(k)] and [rng.uniform(low=0.0, high=1.0, size=k)]: [k]
    doubles drawn in sequence ([0.0 + 1.0 * u] is [u]). *)
Fixpoint rng_random_n (E : Externals) (g : rng_t E) (k : nat)
    : ndarray * rng_t E :=
  match k with
  | O => ([], g)
  | S k' =>
      let '(u, g1) := rng_random E g in
      let '(us, g2) := rng_random_n E g1 k' in
      (u :: us, g2)
  end.

(** [rng.uniform(low=0.0, high=1.0, size=(n, d))], filled row by row. *)
Fixpoint rng_uniform_matrix (E : Externals) (g : rng_t E) (n d : nat)
    : list ndarray * rng_t E :=
  match n with
  | O => ([], g)
  | S n' =>
      let '(row, g1) := rng_random_n E g d in
      let '(rows, g2) := rng_uniform_matrix E g1 n' d in
      (row :: rows, g2)
  end.

(** [cs.sample_configuration(size=n)] *)
Fixpoint cs_sample_n (E : Externals) (cs : ConfigurationSpace)
    (g : cs_rng_t E) (n : nat) : list Configuration * cs_rng_t E :=
  match n with
  | O => ([], g)
  | S n' =>
      let '(c, g1) := cs_sample E cs g in
      let '(cs', g2) := cs_sample_n E cs g1 n' in
      (c :: cs', g2)
  end.

(** ** [DEBase]: the bridge between the unit hypercube and ConfigSpace *)

Section Bridge.
Context (E : Externals).

(** [self.hps]: hyperparameter name to position in the vector form. *)
Fixpoint build_hps (hs : list hyperparameter) (i : nat)
    (hps : list (string * nat)) : list (string * nat) :=
  match hs with
  | [] => hps
  | hp :: rest => build_hps rest (S i) (dict_set hps (hp_name hp) i)
  end.

(** The level an Ordinal or Categorical code selects:
    [levels[np.where((v < ranges) == False)[0][-1]]] with
    [ranges = np.arange(start=0, stop=1, step=1/len(levels))]. *)
Definition decode_level (levels : list value) (vector : ndarray) (i : nat)
    : res value :=
  step ← py_div 1 (float_of_nat (length levels));
  ranges ← np_arange 0 1 step;
  v ← getitem vector i;
  k ← last_not_below v ranges;
  getitem levels k.

Definition decode_hyper (hyper : hyperparameter) (vector : ndarray)
    (i : nat) : res value :=
  match hyper with
  | OrdinalHyperparameter _ sequence _ => decode_level sequence vector i
  | CategoricalHyperparameter _ choices _ => decode_level choices vector i
  | Constant _ default_value => Ok default_value
  | UniformFloatHyperparameter _ lower upper log _ =>
      v ← getitem vector i;
      let param_value :=
        if log
        then let log_range := (np_log E upper - np_log E lower)%float in
             np_exp E (np_log E lower + v * log_range)%float
        else (lower + (upper - lower) * v)%float in
      Ok (VFloat param_value)
  | UniformIntegerHyperparameter _ lower upper log _ =>
      v ← getitem vector i;
      let param_value :=
        if log
        then let log_range :=
               (np_log E (float_of_Z upper)
                - np_log E (float_of_Z lower))%float in
             np_exp E (np_log E (float_of_Z lower) + v * log_range)%float
        else (float_of_Z lower + float_of_Z (upper - lower) * v)%float in
      z ← int_of_round param_value;
      Ok (VInt z)
  end.

Fixpoint decode_loop (hs : list hyperparameter) (vector : ndarray)
    (i : nat) (new_config : Configuration) : res Configuration :=
  match hs with
  | [] => Ok new_config
  | hyper :: rest =>
      param_value ← decode_hyper hyper vector i;
      decode_loop rest vector (S i)
        (dict_set new_config (hp_name hyper) param_value)
  end.

Definition vector_to_configspace (cs : ConfigurationSpace)
    (vector : ndarray) : res Configuration :=
  let new_config := get_default_configuration cs in
  decode_loop (get_hyperparameters cs) vector 0 new_config.

(** The code of one value under its hyperparameter. *)
Definition encode_hyper (hyper : hyperparameter) (v : value) : res float :=
  match hyper with
  | OrdinalHyperparameter _ sequence _ =>
      let nlevels := length sequence in
      k ← index_of sequence v;
      py_div (float_of_nat k) (float_of_nat nlevels)
  | CategoricalHyperparameter _ choices _ =>
      let nlevels := length choices in
      k ← index_of choices v;
      py_div (float_of_nat k) (float_of_nat nlevels)
  | Constant _ _ => Ok 0%float
  | UniformFloatHyperparameter _ lower upper log _ =>
      param_value ← as_float v;
      if log
      then q ← py_div param_value lower;
           r ← py_div upper lower;
           Ok (np_log E q / np_log E r)%float
      else py_div (param_value - lower)%float (upper - lower)%float
  | UniformIntegerHyperparameter _ lower upper log _ =>
      if log
      then param_value ← as_float v;
           q ← py_div param_value (float_of_Z lower);
           r ← py_div (float_of_Z upper) (float_of_Z lower);
           Ok (np_log E q / np_log E r)%float
      else match v with
           | VInt z =>
               py_div (float_of_Z (z - lower)) (float_of_Z (upper - lower))
           | VFloat x =>
               py_div (x - float_of_Z lower)%float
                      (float_of_Z (upper - lower))
           | VStr _ => Raise TypeError
           end
  end.

Fixpoint encode_loop (cs : ConfigurationSpace) (hps : list (string * nat))
    (config : Configuration) (names : list (string * value))
    (vector : ndarray) : res ndarray :=
  match names with
  | [] => Ok vector
  | (name, _) :: rest =>
      i ← dict_get hps name;
      hyper ← get_hyperparameter cs name;
      v ← dict_get config name;
      x ← encode_hyper hyper v;
      if (i <? length vector)%nat
      then encode_loop cs hps config rest (<[i := x]> vector)
      else Raise IndexError
  end.

Definition configspace_to_vector (cs : ConfigurationSpace)
    (hps : list (string * nat)) (config : Configuration) : res ndarray :=
  let dimensions := length (get_hyperparameters cs) in
  let vector := replicate dimensions nan in
  encode_loop cs hps config config vector.

End Bridge.


(** ** Objects of the kernel *)

Definition info := list (string * string).

(** The dictionary an objective returns: [fitness] and [cost] are
    required, [info] is optional. *)
Record pyresult := {
  r_fitness : option float;
  r_cost : option float;
  r_info : option info
}.

(** What an objective receives and what [ask] hands out: a vector when no
    ConfigSpace is attached, a configuration otherwise. *)
Inductive candidate :=
| CVector (x : ndarray)
| CConfig (c : Configuration).

Definition objective := candidate → option float → pyresult.

Definition history_entry : Type := list float * float * float * info.

(** A reference to a one-dimensional array: row [i] of the population
    array (a view), or an array that nothing else shares. *)
Inductive ndref :=
| Row (i : nat)
| Own (a : ndarray).

(** [inc_id] is annotated [int]; Python stores whatever is assigned. *)
Inductive pyobj :=
| PyInt (z : Z)
| PyArr (r : ndref).

Inductive pyclass := ClassDE | ClassAsyncDE.

(** Modelled from the spec: the class [ConfigRepository] of [dehb/utils],
    which [de.py] imports, is not among the sources.  Spec 3 and 4.3: ids
    are the non-negative integers in announcement order and are never
    reused; [announce_config] assigns the next id and stores the vector,
    whatever the fidelity; [announce_population] is the bulk variant and
    returns the ids in input order; [tell_result] appends a result record
    (fidelity, fitness, cost, info) to the history of the id, and telling
    for an unknown id is a programmer error. *)
Record ConfigItem := {
  ci_config : ndarray;
  ci_results : list (float * float * float * info)
}.

Definition ConfigRepository := list ConfigItem.

Definition announce_config (repo : ConfigRepository) (config : ndarray)
    (fidelity : option float) : Z * ConfigRepository :=
  (Z.of_nat (length repo),
   repo ++ [{| ci_config := config; ci_results := [] |}]).

Fixpoint announce_population (repo : ConfigRepository)
    (population : list ndarray) (fidelity : option float)
    : list Z * ConfigRepository :=
  match population with
  | [] => ([], repo)
  | config :: rest =>
      let '(id, repo1) := announce_config repo config fidelity in
      let '(ids, repo2) := announce_population repo1 rest fidelity in
      (id :: ids, repo2)
  end.

Definition tell_result (repo : ConfigRepository) (config_id : Z)
    (fidelity fitness cost : float) (info : info) : res ConfigRepository :=
  if (0 <=? config_id)%Z && (config_id <? Z.of_nat (length repo))%Z
  then Ok (alter (fun it => {| ci_config := ci_config it;
                               ci_results := ci_results it
                                 ++ [(fidelity, fitness, cost, info)] |})
                 (Z.to_nat config_id) repo)
  else Raise IndexError.

(** Attributes fixed by the constructors. *)
Record Params := {
  cs : option ConfigurationSpace;
  f : option objective;
  dimensions : option nat;
  pop_size : option nat;
  max_age : float;
  mutation_factor : option float;
  crossover_prob : option float;
  strategy : option string;
  fix_type : string;
  configspace : bool;
  hps : list (string * nat);
  _original_seed : Z;
  mutation_strategy : option string;
  crossover_strategy : option string;
  encoding : bool;
  dim_map : option (list (list nat));
  _min_pop_size : nat;
  class_ : pyclass;
  async_strategy : option string
}.

Definition is_none {A} (o : option A) : bool :=
  match o with None => true | Some _ => false end.

(** An optional attribute that is used where a number is needed. *)
Definition need {A} (o : option A) : res A :=
  match o with Some a => Ok a | None => Raise TypeError end.

(** [str.split(sep)] *)
Fixpoint py_split_from (sep : Ascii.ascii) (s : string) (cur : string)
    : list string :=
  match s with
  | EmptyString => [cur]
  | String c rest =>
      if Ascii.eqb c sep
      then cur :: py_split_from sep rest EmptyString
      else py_split_from sep rest (cur ++ String c EmptyString)%string
  end.

Definition py_split (sep : Ascii.ascii) (s : string) : list string :=
  py_split_from sep s EmptyString.

Definition str_in (s : option string) (l : list string) : bool :=
  match s with
  | Some x => existsb (String.eqb x) l
  | None => false
  end.

Definition str_is (s : option string) (x : string) : bool :=
  match s with Some y => String.eqb y x | None => false end.

(** [for i in idxs: body], stopping at the first exception. *)
Fixpoint for_each {S : Type} (body : nat → S → res S) (idxs : list nat)
    (s : S) : res S :=
  match idxs with
  | [] => Ok s
  | i :: rest => s' ← body i s; for_each body rest s'
  end.

(** [[g(x) for x in l]], stopping at the first exception. *)
Fixpoint for_list {A B : Type} (g : A → res B) (l : list A) : res (list B) :=
  match l with
  | [] => Ok []
  | x :: rest => y ← g x; ys ← for_list g rest; Ok (y :: ys)
  end.

(** Tuple unpacking of a sampled batch. *)
Definition unpack2 {A} (l : list A) : res (A * A) :=
  match l with [a; b] => Ok (a, b) | _ => Raise ValueError end.
Definition unpack3 {A} (l : list A) : res (A * A * A) :=
  match l with [a; b; c] => Ok (a, b, c) | _ => Raise ValueError end.
Definition unpack4 {A} (l : list A) : res (A * A * A * A) :=
  match l with [a; b; c; d] => Ok (a, b, c, d) | _ => Raise ValueError end.
Definition unpack5 {A} (l : list A) : res (A * A * A * A * A) :=
  match l with
  | [a; b; c; d; e] => Ok (a, b, c, d, e)
  | _ => Raise ValueError
  end.

(** [np.where((vector > 1) | (vector < 0))[0]] *)
Fixpoint violations_from (v : ndarray) (i : nat) : list nat :=
  match v with
  | [] => []
  | x :: rest =>
      if (1 <? x)%float || (x <? 0)%float
      then i :: violations_from rest (S i)
      else violations_from rest (S i)
  end.

(** [vector[idxs] = vals] *)
Fixpoint assign_at (v : ndarray) (idxs : list nat) (vals : list float)
    : ndarray :=
  match idxs, vals with
  | i :: idxs', x :: vals' => assign_at (<[i := x]> v) idxs' vals'
  | _, _ => v
  end.

(** [vector[idxs] = np.clip(vector[idxs], a_min=0, a_max=1)] *)
Definition clip_at (v : ndarray) (idxs : list nat) : ndarray :=
  assign_at v idxs (omap (fun i => np_clip01 <$> v !! i) idxs).

(** [np.where(cond, a, b)] on three arrays of one shape. *)
Fixpoint np_where (cond : list bool) (a b : ndarray) : res ndarray :=
  match cond, a, b with
  | [], [], [] => Ok []
  | c :: cond', x :: a', y :: b' =>
      rest ← np_where cond' a' b'; Ok ((if c then x else y) :: rest)
  | _, _, _ => Raise ValueError
  end.

(** [rows[i] = a]: the shapes must agree, but for a one-entry array,
    which numpy broadcasts over the row. *)
Definition row_assign (rows : list ndarray) (i : nat) (a : ndarray)
    : res (list ndarray) :=
  match rows !! i with
  | None => Raise IndexError
  | Some old =>
      if (length a =? length old)%nat then Ok (<[i := a]> rows)
      else match a with
           | [x] => Ok (<[i := replicate (length old) x]> rows)
           | _ => Raise ValueError
           end
  end.

(** [l[i] = x] on a Python list or a one-dimensional array. *)
Definition setitem {A} (l : list A) (i : nat) (x : A) : res (list A) :=
  if (i <? length l)%nat then Ok (<[i := x]> l) else Raise IndexError.

(** Indexing with an integer the caller supplies. *)
Definition getitemZ {A} (l : list A) (i : Z) : res A :=
  k ← py_index (length l) i; getitem l k.

Definition setitemZ {A} (l : list A) (i : Z) (x : A) : res (list A) :=
  k ← py_index (length l) i; setitem l k x.

Definition row_assignZ (rows : list ndarray) (i : Z) (a : ndarray)
    : res (list ndarray) :=
  k ← py_index (length rows) i; row_assign rows k a.

(** ** The object: [DE] and [AsyncDE] instances

    [_ask_counter], [init], [trials], [trial_ids] and [cur_trial_idx] are
    attributes that [ask] creates on first use ([hasattr]): they are
    [None] until then. *)

Section Kernel.
Context (E : Externals).

Record DE := {
  params : Params;
  rng : rng_t E;
  cs_rng : cs_rng_t E;
  config_repository : ConfigRepository;
  inc_score : float;
  inc_config : option ndref;
  inc_id : pyobj;
  population : option (list ndarray);
  population_ids : option (list Z);
  fitness : option (list float);
  age : option (list float);
  traj : list float;
  runtime : list float;
  history : list history_entry;
  _ask_queue : list (nat * ndarray * Z);
  _ask_counter : option nat;
  init : option bool;
  trials : option (list ndarray);
  trial_ids : option (list Z);
  cur_trial_idx : option nat
}.

Definition set_rng (x : rng_t E) (self : DE) : DE :=
  {| params := params self; rng := x; cs_rng := cs_rng self;
     config_repository := config_repository self;
     inc_score := inc_score self; inc_config := inc_config self;
     inc_id := inc_id self; population := population self;
     population_ids := population_ids self; fitness := fitness self;
     age := age self; traj := traj self; runtime := runtime self;
     history := history self; _ask_queue := _ask_queue self;
     _ask_counter := _ask_counter self; init := init self;
     trials := trials self; trial_ids := trial_ids self;
     cur_trial_idx := cur_trial_idx self |}.

Definition set_cs_rng (x : cs_rng_t E) (self : DE) : DE :=
  {| params := params self; rng := rng self; cs_rng := x;
     config_repository := config_repository self;
     inc_score := inc_score self; inc_config := inc_config self;
     inc_id := inc_id self; population := population self;
     population_ids := population_ids self; fitness := fitness self;
     age := age self; traj := traj self; runtime := runtime self;
     history := history self; _ask_queue := _ask_queue self;
     _ask_counter := _ask_counter self; init := init self;
     trials := trials self; trial_ids := trial_ids self;
     cur_trial_idx := cur_trial_idx self |}.

Definition set_config_repository (x : ConfigRepository) (self : DE) : DE :=
  {| params := params self; rng := rng self; cs_rng := cs_rng self;
     config_repository := x; inc_score := inc_score self;
     inc_config := inc_config self; inc_id := inc_id self;
     population := population self;
     population_ids := population_ids self; fitness := fitness self;
     age := age self; traj := traj self; runtime := runtime self;
     history := history self; _ask_queue := _ask_queue self;
     _ask_counter := _ask_counter self; init := init self;
     trials := trials self; trial_ids := trial_ids self;
     cur_trial_idx := cur_trial_idx self |}.

Definition set_inc_score (x : float) (self : DE) : DE :=
  {| params := params self; rng := rng self; cs_rng := cs_rng self;
     config_repository := config_repository self; inc_score := x;
     inc_config := inc_config self; inc_id := inc_id self;
     population := population self;
     population_ids := population_ids self; fitness := fitness self;
     age := age self; traj := traj self; runtime := runtime self;
     history := history self; _ask_queue := _ask_queue self;
     _ask_counter := _ask_counter self; init := init self;
     trials := trials self; trial_ids := trial_ids self;
     cur_trial_idx := cur_trial_idx self |}.

Definition set_inc_config (x : option ndref) (self : DE) : DE :=
  {| params := params self; rng := rng self; cs_rng := cs_rng self;
     config_repository := config_repository self;
     inc_score := inc_score self; inc_config := x;
     inc_id := inc_id self; population := population self;
     population_ids := population_ids self; fitness := fitness self;
     age := age self; traj := traj self; runtime := runtime self;
     history := history self; _ask_queue := _ask_queue self;
     _ask_counter := _ask_counter self; init := init self;
     trials := trials self; trial_ids := trial_ids self;
     cur_trial_idx := cur_trial_idx self |}.

Definition set_inc_id (x : pyobj) (self : DE) : DE :=
  {| params := params self; rng := rng self; cs_rng := cs_rng self;
     config_repository := config_repository self;
     inc_score := inc_score self; inc_config := inc_config self;
     inc_id := x; population := population self;
     population_ids := population_ids self; fitness := fitness self;
     age := age self; traj := traj self; runtime := runtime self;
     history := history self; _ask_queue := _ask_queue self;
     _ask_counter := _ask_counter self; init := init self;
     trials := trials self; trial_ids := trial_ids self;
     cur_trial_idx := cur_trial_idx self |}.

Definition set_population (x : option (list ndarray)) (self : DE) : DE :=
  {| params := params self; rng := rng self; cs_rng := cs_rng self;
     config_repository := config_repository self;
     inc_score := inc_score self; inc_config := inc_config self;
     inc_id := inc_id self; population := x;
     population_ids := population_ids self; fitness := fitness self;
     age := age self; traj := traj self; runtime := runtime self;
     history := history self; _ask_queue := _ask_queue self;
     _ask_counter := _ask_counter self; init := init self;
     trials := trials self; trial_ids := trial_ids self;
     cur_trial_idx := cur_trial_idx self |}.

Definition set_population_ids (x : option (list Z)) (self : DE) : DE :=
  {| params := params self; rng := rng self; cs_rng := cs_rng self;
     config_repository := config_repository self;
     inc_score := inc_score self; inc_config := inc_config self;
     inc_id := inc_id self; population := population self;
     population_ids := x; fitness := fitness self; age := age self;
     traj := traj self; runtime := runtime self;
     history := history self; _ask_queue := _ask_queue self;
     _ask_counter := _ask_counter self; init := init self;
     trials := trials self; trial_ids := trial_ids self;
     cur_trial_idx := cur_trial_idx self |}.

Definition set_fitness (x : option (list float)) (self : DE) : DE :=
  {| params := params self; rng := rng self; cs_rng := cs_rng self;
     config_repository := config_repository self;
     inc_score := inc_score self; inc_config := inc_config self;
     inc_id := inc_id self; population := population self;
     population_ids := population_ids self; fitness := x;
     age := age self; traj := traj self; runtime := runtime self;
     history := history self; _ask_queue := _ask_queue self;
     _ask_counter := _ask_counter self; init := init self;
     trials := trials self; trial_ids := trial_ids self;
     cur_trial_idx := cur_trial_idx self |}.

Definition set_age (x : option (list float)) (self : DE) : DE :=
  {| params := params self; rng := rng self; cs_rng := cs_rng self;
     config_repository := config_repository self;
     inc_score := inc_score self; inc_config := inc_config self;
     inc_id := inc_id self; population := population self;
     population_ids := population_ids self; fitness := fitness self;
     age := x; traj := traj self; runtime := runtime self;
     history := history self; _ask_queue := _ask_queue self;
     _ask_counter := _ask_counter self; init := init self;
     trials := trials self; trial_ids := trial_ids self;
     cur_trial_idx := cur_trial_idx self |}.

Definition set_traj (x : list float) (self : DE) : DE :=
  {| params := params self; rng := rng self; cs_rng := cs_rng self;
     config_repository := config_repository self;
     inc_score := inc_score self; inc_config := inc_config self;
     inc_id := inc_id self; population := population self;
     population_ids := population_ids self; fitness := fitness self;
     age := age self; traj := x; runtime := runtime self;
     history := history self; _ask_queue := _ask_queue self;
     _ask_counter := _ask_counter self; init := init self;
     trials := trials self; trial_ids := trial_ids self;
     cur_trial_idx := cur_trial_idx self |}.

Definition set_runtime (x : list float) (self : DE) : DE :=
  {| params := params self; rng := rng self; cs_rng := cs_rng self;
     config_repository := config_repository self;
     inc_score := inc_score self; inc_config := inc_config self;
     inc_id := inc_id self; population := population self;
     population_ids := population_ids self; fitness := fitness self;
     age := age self; traj := traj self; runtime := x;
     history := history self; _ask_queue := _ask_queue self;
     _ask_counter := _ask_counter self; init := init self;
     trials := trials self; trial_ids := trial_ids self;
     cur_trial_idx := cur_trial_idx self |}.

Definition set_history (x : list history_entry) (self : DE) : DE :=
  {| params := params self; rng := rng self; cs_rng := cs_rng self;
     config_repository := config_repository self;
     inc_score := inc_score self; inc_config := inc_config self;
     inc_id := inc_id self; population := population self;
     population_ids := population_ids self; fitness := fitness self;
     age := age self; traj := traj self; runtime := runtime self;
     history := x; _ask_queue := _ask_queue self;
     _ask_counter := _ask_counter self; init := init self;
     trials := trials self; trial_ids := trial_ids self;
     cur_trial_idx := cur_trial_idx self |}.

Definition set_ask_queue (x : list (nat * ndarray * Z)) (self : DE) : DE :=
  {| params := params self; rng := rng self; cs_rng := cs_rng self;
     config_repository := config_repository self;
     inc_score := inc_score self; inc_config := inc_config self;
     inc_id := inc_id self; population := population self;
     population_ids := population_ids self; fitness := fitness self;
     age := age self; traj := traj self; runtime := runtime self;
     history := history self; _ask_queue := x;
     _ask_counter := _ask_counter self; init := init self;
     trials := trials self; trial_ids := trial_ids self;
     cur_trial_idx := cur_trial_idx self |}.

Definition set_ask_counter (x : option nat) (self : DE) : DE :=
  {| params := params self; rng := rng self; cs_rng := cs_rng self;
     config_repository := config_repository self;
     inc_score := inc_score self; inc_config := inc_config self;
     inc_id := inc_id self; population := population self;
     population_ids := population_ids self; fitness := fitness self;
     age := age self; traj := traj self; runtime := runtime self;
     history := history self; _ask_queue := _ask_queue self;
     _ask_counter := x; init := init self; trials := trials self;
     trial_ids := trial_ids self; cur_trial_idx := cur_trial_idx self |}.

Definition set_init (x : option bool) (self : DE) : DE :=
  {| params := params self; rng := rng self; cs_rng := cs_rng self;
     config_repository := config_repository self;
     inc_score := inc_score self; inc_config := inc_config self;
     inc_id := inc_id self; population := population self;
     population_ids := population_ids self; fitness := fitness self;
     age := age self; traj := traj self; runtime := runtime self;
     history := history self; _ask_queue := _ask_queue self;
     _ask_counter := _ask_counter self; init := x;
     trials := trials self; trial_ids := trial_ids self;
     cur_trial_idx := cur_trial_idx self |}.

Definition set_trials (x : option (list ndarray)) (self : DE) : DE :=
  {| params := params self; rng := rng self; cs_rng := cs_rng self;
     config_repository := config_repository self;
     inc_score := inc_score self; inc_config := inc_config self;
     inc_id := inc_id self; population := population self;
     population_ids := population_ids self; fitness := fitness self;
     age := age self; traj := traj self; runtime := runtime self;
     history := history self; _ask_queue := _ask_queue self;
     _ask_counter := _ask_counter self; init := init self; trials := x;
     trial_ids := trial_ids self; cur_trial_idx := cur_trial_idx self |}.

Definition set_trial_ids (x : option (list Z)) (self : DE) : DE :=
  {| params := params self; rng := rng self; cs_rng := cs_rng self;
     config_repository := config_repository self;
     inc_score := inc_score self; inc_config := inc_config self;
     inc_id := inc_id self; population := population self;
     population_ids := population_ids self; fitness := fitness self;
     age := age self; traj := traj self; runtime := runtime self;
     history := history self; _ask_queue := _ask_queue self;
     _ask_counter := _ask_counter self; init := init self;
     trials := trials self; trial_ids := x;
     cur_trial_idx := cur_trial_idx self |}.

Definition set_cur_trial_idx (x : option nat) (self : DE) : DE :=
  {| params := params self; rng := rng self; cs_rng := cs_rng self;
     config_repository := config_repository self;
     inc_score := inc_score self; inc_config := inc_config self;
     inc_id := inc_id self; population := population self;
     population_ids := population_ids self; fitness := fitness self;
     age := age self; traj := traj self; runtime := runtime self;
     history := history self; _ask_queue := _ask_queue self;
     _ask_counter := _ask_counter self; init := init self;
     trials := trials self; trial_ids := trial_ids self;
     cur_trial_idx := x |}.

(** *** [DEBase] *)

(** [DEBase.reset] as [DE.reset] extends it. *)
Definition reset (reset_seeds : bool) (self : DE) : DE :=
  let p := params self in
  {| params := p;
     rng := if reset_seeds then default_rng E (_original_seed p)
            else rng self;
     cs_rng := if reset_seeds
               then match cs p with
                    | Some _ => cs_seed E (_original_seed p)
                    | None => cs_rng self
                    end
               else cs_rng self;
     config_repository := config_repository self;
     inc_score := infinity; inc_config := None; inc_id := PyInt (-1);
     population := None; population_ids := None; fitness := None;
     age := None;
     traj := []; runtime := []; history := [];
     _ask_queue := _ask_queue self; _ask_counter := _ask_counter self;
     init := init self; trials := trials self;
     trial_ids := trial_ids self; cur_trial_idx := cur_trial_idx self |}.

(** Reading and writing through an array reference. *)
Definition deref (r : ndref) (self : DE) : res ndarray :=
  match r with
  | Own a => Ok a
  | Row i => rows ← need (population self); getitem rows i
  end.

Definition store (r : ndref) (a : ndarray) (self : DE) : res (ndref * DE) :=
  match r with
  | Own _ => Ok (Own a, self)
  | Row i =>
      rows ← need (population self);
      rows' ← setitem rows i a;
      Ok (Row i, set_population (Some rows') self)
  end.

(** A view of the array that [self.population] is about to stop naming
    keeps the contents of that array. *)
Definition detach (r : ndref) (self : DE) : ndref :=
  match r with
  | Own _ => r
  | Row i =>
      match population self with
      | Some rows => match rows !! i with Some a => Own a | None => r end
      | None => r
      end
  end.

Definition detach_views (self : DE) : DE :=
  let c := match inc_config self with
           | Some r => Some (detach r self)
           | None => None
           end in
  let d := match inc_id self with
           | PyArr r => PyArr (detach r self)
           | o => o
           end in
  set_inc_id d (set_inc_config c self).

Definition the_cs (self : DE) : res ConfigurationSpace :=
  match cs (params self) with
  | Some c => Ok c
  | None => Raise AttributeError
  end.

Definition init_population (n : nat) (self : DE)
    : res (list ndarray * DE) :=
  if configspace (params self)
  then c ← the_cs self;
       let '(sampled, g) := cs_sample_n E c (cs_rng self) n in
       rows ← for_list (configspace_to_vector E c (hps (params self)))
                sampled;
       Ok (rows, set_cs_rng g self)
  else d ← need (dimensions (params self));
       let '(rows, g) := rng_uniform_matrix E (rng self) n d in
       Ok (rows, set_rng g self).

(** [self.rng.choice(np.arange(n), size, replace=False)] *)
Definition choice (n size : nat) (self : DE) : res (list nat * DE) :=
  if (n <? size)%nat then Raise ValueError
  else let '(selection, g) := rng_choice E (rng self) n size in
       Ok (selection, set_rng g self).

Definition sample_population (size : nat)
    (alt_pop : option (list (option ndarray))) (self : DE)
    : res (list ndarray * DE) :=
  let from_own :=
    rows ← need (population self);
    '(selection, self1) ← choice (length rows) size self;
    picked ← for_list (getitem rows) selection;
    Ok (picked, self1) in
  match alt_pop with
  | Some alt =>
      if existsb is_none alt then from_own
      else
        let alt_rows := omap id alt in
        alt_rows ← (if (length alt_rows <? 3)%nat
                    then rows ← need (population self);
                         Ok (alt_rows ++ rows)
                    else Ok alt_rows);
        '(selection, self1) ← choice (length alt_rows) size self;
        picked ← for_list (getitem alt_rows) selection;
        Ok (picked, self1)
  | None => from_own
  end.

Definition boundary_check (vector : ndref) (self : DE)
    : res (ndref * DE) :=
  v ← deref vector self;
  let violations := violations_from v 0 in
  if (length violations =? 0)%nat then Ok (vector, self)
  else if String.eqb (fix_type (params self)) "random"
  then let '(us, g) := rng_random_n E (rng self) (length violations) in
       store vector (assign_at v violations us) (set_rng g self)
  else store vector (clip_at v violations) self.

(** *** [DE] *)

Definition _set_min_pop_size (mutation_strategy : option string) : nat :=
  if str_in mutation_strategy ["rand1"; "rand2dir"; "randtobest1"]%string
  then 3
  else if str_in mutation_strategy ["currenttobest1"; "best1"]%string
  then 2
  else if str_in mutation_strategy ["best2"]%string then 4
  else if str_in mutation_strategy ["rand2"]%string then 5
  else 1.

Definition map_to_original (vector : ndarray) (self : DE)
    : res (ndarray * DE) :=
  dm ← match dim_map (params self) with
       | Some dm => Ok dm
       | None => Raise AttributeError
       end;
  let dimensions := length dm in
  let '(_, g) := rng_random_n E (rng self) dimensions in
  new_vector ← for_list (fun idxs => sel ← for_list (getitem vector) idxs;
                                     np_max sel) dm;
  Ok (new_vector, set_rng g self).

Definition f_objective (x : ndarray) (fidelity : option float) (self : DE)
    : res (pyresult * DE) :=
  obj ← match f (params self) with
        | Some obj => Ok obj
        | None => Raise NotImplementedError
        end;
  '(x, self1) ← (if encoding (params self) then map_to_original x self
                  else Ok (x, self));
  config ← (if configspace (params self)
            then c ← the_cs self1;
                 CConfig <$> vector_to_configspace E c x
            else Ok (CVector x));
  let res := obj config fidelity in
  _ ← assert (negb (is_none (r_fitness res)));
  _ ← assert (negb (is_none (r_cost res)));
  Ok (res, self1).

Definition mutation_rand1 (self : DE) (r1 r2 r3 : ndarray) : res ndarray :=
  F ← need (mutation_factor (params self));
  let diff := vsub r2 r3 in
  let mutant := vadd r1 (vscale F diff) in
  Ok mutant.

Definition mutation_rand2 (self : DE) (r1 r2 r3 r4 r5 : ndarray)
    : res ndarray :=
  F ← need (mutation_factor (params self));
  let diff1 := vsub r2 r3 in
  let diff2 := vsub r4 r5 in
  let mutant := vadd (vadd r1 (vscale F diff1)) (vscale F diff2) in
  Ok mutant.

Definition mutation_currenttobest1 (self : DE)
    (current best r1 r2 : ndarray) : res ndarray :=
  F ← need (mutation_factor (params self));
  let diff1 := vsub best current in
  let diff2 := vsub r1 r2 in
  let mutant := vadd (vadd current (vscale F diff1)) (vscale F diff2) in
  Ok mutant.

Definition mutation_rand2dir (self : DE) (r1 r2 r3 : ndarray)
    : res ndarray :=
  F ← need (mutation_factor (params self));
  let diff := vsub (vsub r1 r2) r3 in
  let mutant := vadd r1 (vhalf (vscale F diff)) in
  Ok mutant.

(** [if best is None: best = self.population[np.argmin(self.fitness)]] *)
Definition best_or_argmin (best : option ndref) (self : DE) : res ndarray :=
  match best with
  | Some b => deref b self
  | None =>
      fit ← need (fitness self);
      k ← np_argmin fit;
      rows ← need (population self);
      getitem rows k
  end.

(** [DE.mutation] and [AsyncDE.mutation] are one text but for the
    sampling call, [self.sample_population(size, alt_pop)] in the first
    and [self._sample_population(size, alt_pop, target=current)] in the
    second: [sample] stands for that call. *)
Definition mutation_via
    (sample : nat → DE → res (list ndarray * DE))
    (current best : option ndref) (self : DE) : res (ndarray * DE) :=
  let ms := mutation_strategy (params self) in
  if str_is ms "rand1" then
    '(rs, self1) ← sample 3%nat self;
    '(r1, r2, r3) ← unpack3 rs;
    mutant ← mutation_rand1 self1 r1 r2 r3;
    Ok (mutant, self1)
  else if str_is ms "rand2" then
    '(rs, self1) ← sample 5%nat self;
    '(r1, r2, r3, r4, r5) ← unpack5 rs;
    mutant ← mutation_rand2 self1 r1 r2 r3 r4 r5;
    Ok (mutant, self1)
  else if str_is ms "rand2dir" then
    '(rs, self1) ← sample 3%nat self;
    '(r1, r2, r3) ← unpack3 rs;
    mutant ← mutation_rand2dir self1 r1 r2 r3;
    Ok (mutant, self1)
  else if str_is ms "best1" then
    '(rs, self1) ← sample 2%nat self;
    '(r1, r2) ← unpack2 rs;
    best ← best_or_argmin best self1;
    mutant ← mutation_rand1 self1 best r1 r2;
    Ok (mutant, self1)
  else if str_is ms "best2" then
    '(rs, self1) ← sample 4%nat self;
    '(r1, r2, r3, r4) ← unpack4 rs;
    best ← best_or_argmin best self1;
    mutant ← mutation_rand2 self1 best r1 r2 r3 r4;
    Ok (mutant, self1)
  else if str_is ms "currenttobest1" then
    '(rs, self1) ← sample 2%nat self;
    '(r1, r2) ← unpack2 rs;
    best ← best_or_argmin best self1;
    current ← match current with
              | Some c => deref c self1
              | None => Raise TypeError
              end;
    mutant ← mutation_currenttobest1 self1 current best r1 r2;
    Ok (mutant, self1)
  else if str_is ms "randtobest1" then
    '(rs, self1) ← sample 3%nat self;
    '(r1, r2, r3) ← unpack3 rs;
    best ← best_or_argmin best self1;
    mutant ← mutation_currenttobest1 self1 r1 best r2 r3;
    Ok (mutant, self1)
  else Raise UnboundLocalError.

Definition DE_mutation (current best : option ndref)
    (alt_pop : option (list (option ndarray))) (self : DE)
    : res (ndarray * DE) :=
  mutation_via (fun size => sample_population size alt_pop)
    current best self.

(** *** [AsyncDE]: sampling for the mutation step *)

Fixpoint remove_first_equal (target : ndarray) (rows : list ndarray)
    : list ndarray :=
  match rows with
  | [] => []
  | row :: rest =>
      if all_eq target row then rest
      else row :: remove_first_equal target rest
  end.

(** The pool [_sample_population] draws from: its statements up to the
    call of [rng.choice]. *)
Definition _sampling_pool (alt_pop : option (list (option ndarray)))
    (target : option ndarray) (self : DE) : res (list ndarray * DE) :=
  rows ← match alt_pop with
         | Some alt =>
             if existsb is_none alt then need (population self)
             else Ok (omap id alt)
         | None => need (population self)
         end;
  let rows :=
    match target with
    | Some t =>
        if (1 <? length rows)%nat then remove_first_equal t rows else rows
    | None => rows
    end in
  if (length rows <? _min_pop_size (params self))%nat
  then let filler := (_min_pop_size (params self) - length rows)%nat in
       '(new_pop, self1) ← init_population filler self;
       Ok (rows ++ new_pop, self1)
  else Ok (rows, self).

Definition _sample_population (size : nat)
    (alt_pop : option (list (option ndarray))) (target : option ndarray)
    (self : DE) : res (list ndarray * DE) :=
  '(rows, self1) ← _sampling_pool alt_pop target self;
  '(selection, self2) ← choice (length rows) size self1;
  picked ← for_list (getitem rows) selection;
  Ok (picked, self2).

Definition AsyncDE_mutation (current best : option ndref)
    (alt_pop : option (list (option ndarray))) (self : DE)
    : res (ndarray * DE) :=
  target ← match current with
           | Some c => Some <$> deref c self
           | None => Ok None
           end;
  mutation_via (fun size => _sample_population size alt_pop target)
    current best self.

(** [self.mutation(...)]: the method of the instance's class. *)
Definition mutation (current best : option ndref)
    (alt_pop : option (list (option ndarray))) (self : DE)
    : res (ndarray * DE) :=
  match class_ (params self) with
  | ClassDE => DE_mutation current best alt_pop self
  | ClassAsyncDE => AsyncDE_mutation current best alt_pop self
  end.

(** *** Crossover *)

(** [np.where(cross_points, mutant, target)] builds an array of its
    own. *)
Definition crossover_bin (target : ndref) (mutant : ndarray) (self : DE)
    : res (ndref * DE) :=
  d ← need (dimensions (params self));
  cr ← need (crossover_prob (params self));
  let '(us, g1) := rng_random_n E (rng self) d in
  let cross_points := map (fun u => (u <? cr)%float) us in
  '(cross_points, g2) ←
    (if negb (existsb id cross_points)
     then if (d =? 0)%nat then Raise ValueError
          else let '(k, g2) := rng_integers E g1 d in
               cross_points ← setitem cross_points k true;
               Ok (cross_points, g2)
     else Ok (cross_points, g1));
  t ← deref target self;
  offspring ← np_where cross_points mutant t;
  Ok (Own offspring, set_rng g2 self).

(** The [while] loop of [crossover_exp]: the draw [rng.random()] comes
    first in the test, then [L < D]; [remaining] is [D - L]. *)
Fixpoint crossover_exp_loop (cr : float) (mutant : ndarray) (n d : nat)
    (remaining L : nat) (g : rng_t E) (target : ndarray)
    : res (ndarray * rng_t E) :=
  let '(u, g1) := rng_random E g in
  if (u <? cr)%float then
    match remaining with
    | O => Ok (target, g1)
    | S remaining' =>
        let idx := ((n + L) mod d)%nat in
        m ← getitem mutant idx;
        target ← setitem target idx m;
        crossover_exp_loop cr mutant n d remaining' (S L) g1 target
    end
  else Ok (target, g1).

(** [crossover_exp] writes into [target] and returns it: when [target]
    is a row of the population, the row itself is overwritten. *)
Definition crossover_exp (target : ndref) (mutant : ndarray) (self : DE)
    : res (ndref * DE) :=
  d ← need (dimensions (params self));
  cr ← need (crossover_prob (params self));
  if (d =? 0)%nat then Raise ValueError
  else
    let '(n, g1) := rng_integers E (rng self) d in
    t ← deref target self;
    '(t', g2) ← crossover_exp_loop cr mutant n d d 0 g1 t;
    store target t' (set_rng g2 self).

Definition crossover (target : ndref) (mutant : ndarray) (self : DE)
    : res (ndref * DE) :=
  if str_is (crossover_strategy (params self)) "bin"
  then crossover_bin target mutant self
  else if str_is (crossover_strategy (params self)) "exp"
  then crossover_exp target mutant self
  else Raise UnboundLocalError.

(** *** Evaluation, selection and the generation loop *)

Definition logs : Type := list float * list float * list history_entry.

Definition info_of (res : pyresult) : info :=
  match r_info res with Some i => i | None => [] end.

(** The body of the evaluation loop of [init_eval_pop]. *)
Definition init_eval_step (fidelity : option float) (i : nat)
    (acc : logs * DE) : res (logs * DE) :=
  let '((traj, runtime, history), self) := acc in
  rows ← need (population self);
  config ← getitem rows i;
  ids ← need (population_ids self);
  config_id ← getitem ids i;
  '(res, self) ← f_objective config fidelity self;
  fit ← need (r_fitness res);
  cost ← need (r_cost res);
  fits ← need (fitness self);
  fits ← setitem fits i fit;
  let self := set_fitness (Some fits) self in
  let info := info_of res in
  let self :=
    if (fit <? inc_score self)%float
    then set_inc_id (PyInt config_id)
           (set_inc_config (Some (Row i)) (set_inc_score fit self))
    else self in
  repo ← tell_result (config_repository self) config_id
            (fidelity_or_0 fidelity) fit cost info;
  let self := set_config_repository repo self in
  Ok ((traj ++ [inc_score self], runtime ++ [cost],
       history ++ [(config, fit, fidelity_or_0 fidelity, info)]), self).

Definition init_eval_pop (fidelity : option float) (eval : bool)
    (self : DE) : res (logs * DE) :=
  n ← need (pop_size (params self));
  '(rows, self) ← init_population n (detach_views self);
  let self := set_population (Some rows) self in
  let '(ids, repo) :=
    announce_population (config_repository self) rows fidelity in
  let self := set_population_ids (Some ids)
                (set_config_repository repo self) in
  let self := set_fitness (Some (replicate n infinity)) self in
  let self := set_age (Some (replicate n (max_age (params self)))) self in
  if negb eval then Ok (([], [], []), self)
  else for_each (init_eval_step fidelity) (seq 0 n) (([], [], []), self).

(** The parent-offspring competition at one index, the same statements
    in [selection] and in [tell]. *)
Definition one_vs_one (i : Z) (trial : ndarray) (trial_id : Z)
    (fit : float) (self : DE) : res DE :=
  fits ← need (fitness self);
  parent ← getitemZ fits i;
  if (fit <=? parent)%float then
    rows ← need (population self);
    rows ← row_assignZ rows i trial;
    ids ← need (population_ids self);
    ids ← setitemZ ids i trial_id;
    fits ← setitemZ fits i fit;
    ages ← need (age self);
    ages ← setitemZ ages i (max_age (params self));
    Ok (set_age (Some ages)
          (set_fitness (Some fits)
             (set_population_ids (Some ids)
                (set_population (Some rows) self))))
  else
    ages ← need (age self);
    a ← getitemZ ages i;
    ages ← setitemZ ages i (a - 1)%float;
    Ok (set_age (Some ages) self).

(** The body of the loop of [selection]. *)
Definition selection_step (trials : list ndarray) (trial_ids : list Z)
    (fidelity : option float) (i : nat) (acc : logs * DE)
    : res (logs * DE) :=
  let '((traj, runtime, history), self) := acc in
  trial ← getitem trials i;
  '(res, self) ← f_objective trial fidelity self;
  fit ← need (r_fitness res);
  cost ← need (r_cost res);
  let info := info_of res in
  trial_id ← getitem trial_ids i;
  repo ← tell_result (config_repository self) trial_id
            (fidelity_or_0 fidelity) fit cost info;
  let self := set_config_repository repo self in
  self ← one_vs_one (Z.of_nat i) trial trial_id fit self;
  fits ← need (fitness self);
  fi ← getitem fits i;
  let self :=
    if (fi <? inc_score self)%float
    then set_inc_id (PyArr (Row i))
           (set_inc_config (Some (Row i)) (set_inc_score fi self))
    else self in
  Ok ((traj ++ [inc_score self], runtime ++ [cost],
       history ++ [(trial, fit, fidelity_or_0 fidelity, info)]), self).

Definition selection (trials : list ndarray) (trial_ids : list Z)
    (fidelity : option float) (self : DE) : res (logs * DE) :=
  for_each (selection_step trials trial_ids fidelity)
    (seq 0 (length trials)) (([], [], []), self).

(** The body of the loop that builds the trials, in
    [evolve_generation] and in [ask]. *)
Definition make_trial (fidelity : option float) (best : option ndref)
    (alt_pop : option (list (option ndarray))) (j : nat)
    (acc : (list ndref * list Z) * DE) : res ((list ndref * list Z) * DE) :=
  let '((trials, trial_ids), self) := acc in
  rows ← need (population self);
  _ ← getitem rows j;
  let target := Row j in
  '(donor, self) ← mutation (Some target) best alt_pop self;
  '(trial, self) ← crossover target donor self;
  '(trial, self) ← boundary_check trial self;
  v ← deref trial self;
  let '(trial_id, repo) :=
    announce_config (config_repository self) v
      (Some (fidelity_or_0 fidelity)) in
  Ok ((trials ++ [trial], trial_ids ++ [trial_id]),
      set_config_repository repo self).

(** The loop, then [np.array(trials)], which copies what the
    references hold at that moment. *)
Definition make_trials (fidelity : option float) (best : option ndref)
    (alt_pop : option (list (option ndarray))) (self : DE)
    : res ((list ndarray * list Z) * DE) :=
  n ← need (pop_size (params self));
  '((trials, trial_ids), self) ←
    for_each (make_trial fidelity best alt_pop) (seq 0 n) (([], []), self);
  trials ← for_list (fun r => deref r self) trials;
  Ok ((trials, trial_ids), self).

(** [DE.evolve_generation]; the [deferred] branch of
    [AsyncDE.evolve_generation] has the same statements. *)
Definition evolve_generation (fidelity : option float)
    (best : option ndref) (alt_pop : option (list (option ndarray)))
    (self : DE) : res (logs * DE) :=
  '((trials, trial_ids), self) ← make_trials fidelity best alt_pop self;
  selection trials trial_ids fidelity self.

(** [DE.run]: the body of its loop, which calls [evolve_generation]
    with the default [best=None], then the method. *)
Definition run_generation (fidelity : option float) (i : nat) (self : DE)
    : res DE :=
  '((traj', runtime', history'), self) ←
    evolve_generation fidelity None None self;
  Ok (set_history (history self ++ history')
        (set_runtime (runtime self ++ runtime')
           (set_traj (traj self ++ traj') self))).

Definition run (generations : nat) (fidelity : option float)
    (reset_flag : bool) (self : DE) : res (logs * DE) :=
  self ← (if reset_flag
          then '((traj', runtime', history'), self) ←
                 init_eval_pop fidelity true (reset true self);
               Ok (set_history history'
                     (set_runtime runtime' (set_traj traj' self)))
          else Ok self);
  self ← for_each (run_generation fidelity) (seq 0 generations) self;
  Ok ((traj self, runtime self, history self), self).

(** *** The ask/tell interface *)

Definition to_candidate (trial : ndarray) (self : DE)
    : res (candidate * DE) :=
  '(x, self) ← (if encoding (params self) then map_to_original trial self
                 else Ok (trial, self));
  config ← (if configspace (params self)
            then c ← the_cs self;
                 CConfig <$> vector_to_configspace E c x
            else Ok (CVector x));
  Ok (config, self).

Definition ask (fidelity : option float) (self : DE)
    : res ((candidate * Z * nat) * DE) :=
  _ ← assert (length (_ask_queue self) =? 0)%nat;
  self ← (if is_none (population self)
          then '(_, self) ← init_eval_pop fidelity false (reset true self);
               Ok (set_init (Some true) self)
          else Ok self);
  let self := if is_none (_ask_counter self)
              then set_ask_counter (Some 0%nat) self else self in
  let self := if is_none (init self)
              then set_init (Some false) self else self in
  '(trial, trial_id, target_idx, self) ←
    match init self with
    | Some true =>
        n ← need (pop_size (params self));
        counter ← need (_ask_counter self);
        _ ← (if (n =? 0)%nat then Raise ZeroDivisionError else Ok tt);
        let target_idx := (counter mod n)%nat in
        rows ← need (population self);
        trial ← getitem rows target_idx;
        ids ← need (population_ids self);
        trial_id ← getitem ids target_idx;
        let self := set_ask_counter (Some (S counter)) self in
        let self := if (n <=? S counter)%nat
                    then set_init (Some false) self else self in
        Ok (trial, trial_id, target_idx, self)
    | _ =>
        let stale :=
          match trials self, cur_trial_idx self with
          | Some ts, Some k => (length ts =? 0)%nat || (length ts <=? k)%nat
          | Some ts, None => (length ts =? 0)%nat
          | None, _ => true
          end in
        self ← (if stale
                then '((ts, tids), self) ←
                       make_trials fidelity (inc_config self) None self;
                     Ok (set_cur_trial_idx (Some 0%nat)
                           (set_trial_ids (Some tids)
                              (set_trials (Some ts) self)))
                else Ok self);
        ts ← need (trials self);
        tids ← need (trial_ids self);
        k ← match cur_trial_idx self with
            | Some k => Ok k
            | None => Raise AttributeError
            end;
        trial ← getitem ts k;
        trial_id ← getitem tids k;
        Ok (trial, trial_id, k, set_cur_trial_idx (Some (S k)) self)
    end;
  '(config, self) ← to_candidate trial self;
  Ok ((config, trial_id, target_idx), self).

(** The first two statements of [tell]: the trial back in vector
    form. *)
Definition tell_vector (trial : candidate) (self : DE)
    : res (ndarray * DE) :=
  trial ← (if configspace (params self)
           then match trial with
                | CConfig c =>
                    cspace ← the_cs self;
                    configspace_to_vector E cspace (hps (params self)) c
                | CVector _ => Raise TypeError
                end
           else match trial with
                | CVector x => Ok x
                | CConfig _ => Raise TypeError
                end);
  if encoding (params self) then map_to_original trial self
  else Ok (trial, self).

Definition tell (trial : candidate) (trial_id : Z) (target_idx : Z)
    (result : pyresult) (fidelity : option float) (self : DE) : res DE :=
  '(trial, self) ← tell_vector trial self;
  fit ← match r_fitness result with
        | Some x => Ok x | None => Raise KeyError end;
  cost ← match r_cost result with
         | Some x => Ok x | None => Raise KeyError end;
  let info := info_of result in
  repo ← tell_result (config_repository self) trial_id
            (fidelity_or_0 fidelity) fit cost info;
  let self := set_config_repository repo self in
  self ← one_vs_one target_idx trial trial_id fit self;
  fits ← need (fitness self);
  best_idx ← np_argmin fits;
  best_fit ← getitem fits best_idx;
  rows ← need (population self);
  _ ← getitem rows best_idx;
  ids ← need (population_ids self);
  best_id ← getitem ids best_idx;
  let self := set_inc_id (PyInt best_id)
                (set_inc_config (Some (Row best_idx))
                   (set_inc_score best_fit self)) in
  Ok (set_history
        (history self ++ [(trial, fit, fidelity_or_0 fidelity, info)])
        (set_runtime (runtime self ++ [cost])
           (set_traj (traj self ++ [inc_score self]) self))).

(** *** Constructors *)

Record InitArgs := {
  a_cs : option ConfigurationSpace;
  a_f : option objective;
  a_dimensions : option nat;
  a_pop_size : option nat;
  a_max_age : float;
  a_mutation_factor : option float;
  a_crossover_prob : option float;
  a_strategy : option string;
  a_boundary_fix_type : string;
  a_encoding : bool;
  a_dim_map : option (list (list nat));
  a_seed : Z;
  a_config_repository : option ConfigRepository;
  a_async_strategy : string
}.

(** [self.strategy.split('_')[0]] and [[1]] *)
Definition split_strategy (strategy : option string)
    : res (option string * option string) :=
  match strategy with
  | Some s =>
      let parts := py_split "_"%char s in
      m ← getitem parts 0;
      c ← getitem parts 1;
      Ok (Some m, Some c)
  | None => Ok (None, None)
  end.

(** [DEBase.__init__] and, after it, [DE.__init__].  The seed is the
    resolved [_original_seed]; the creation of [output_path] on disk is
    left out. *)
Definition DE__init__ (a : InitArgs) : res DE :=
  let dims :=
    match a_dimensions a, a_cs a with
    | None, Some c => Some (length (get_hyperparameters c))
    | d, _ => d
    end in
  let is_cs := negb (is_none (a_cs a)) in
  let hps0 := match a_cs a with
              | Some c => build_hps (get_hyperparameters c) 0 []
              | None => []
              end in
  let repo := match a_config_repository a with
              | Some r => r
              | None => []
              end in
  '(ms, xs) ← split_strategy (a_strategy a);
  let p := {| cs := a_cs a; f := a_f a; dimensions := dims;
              pop_size := a_pop_size a; max_age := a_max_age a;
              mutation_factor := a_mutation_factor a;
              crossover_prob := a_crossover_prob a;
              strategy := a_strategy a;
              fix_type := a_boundary_fix_type a;
              configspace := is_cs; hps := hps0;
              _original_seed := a_seed a;
              mutation_strategy := ms; crossover_strategy := xs;
              encoding := a_encoding a; dim_map := a_dim_map a;
              _min_pop_size := _set_min_pop_size ms;
              class_ := ClassDE; async_strategy := None |} in
  let self0 :=
    {| params := p;
       rng := default_rng E (a_seed a);
       cs_rng := cs_seed E (a_seed a);
       config_repository := repo;
       inc_score := infinity; inc_config := None; inc_id := PyInt (-1);
       population := None; population_ids := None; fitness := None;
       age := None; traj := []; runtime := []; history := [];
       _ask_queue := []; _ask_counter := None; init := None;
       trials := None; trial_ids := None; cur_trial_idx := None |} in
  Ok (reset true self0).

Definition set_params (p : Params) (self : DE) : DE :=
  {| params := p; rng := rng self; cs_rng := cs_rng self;
     config_repository := config_repository self;
     inc_score := inc_score self; inc_config := inc_config self;
     inc_id := inc_id self; population := population self;
     population_ids := population_ids self; fitness := fitness self;
     age := age self; traj := traj self; runtime := runtime self;
     history := history self; _ask_queue := _ask_queue self;
     _ask_counter := _ask_counter self; init := init self;
     trials := trials self; trial_ids := trial_ids self;
     cur_trial_idx := cur_trial_idx self |}.

(** [AsyncDE.__init__]: [DE.__init__], the strategy split once more,
    then the check of [async_strategy]. *)
Definition AsyncDE__init__ (a : InitArgs) : res DE :=
  self ← DE__init__ a;
  '(ms, xs) ← split_strategy (strategy (params self));
  let p := params self in
  let p := {| cs := cs p; f := f p; dimensions := dimensions p;
              pop_size := pop_size p; max_age := max_age p;
              mutation_factor := mutation_factor p;
              crossover_prob := crossover_prob p;
              strategy := strategy p; fix_type := fix_type p;
              configspace := configspace p; hps := hps p;
              _original_seed := _original_seed p;
              mutation_strategy := ms; crossover_strategy := xs;
              encoding := encoding p; dim_map := dim_map p;
              _min_pop_size := _min_pop_size p;
              class_ := ClassAsyncDE;
              async_strategy := Some (a_async_strategy a) |} in
  _ ← assert (str_in (Some (a_async_strategy a))
                ["immediate"; "random"; "worst"; "deferred"]%string);
  Ok (set_params p self).

End Kernel.

Arguments params {E} _.
Arguments rng {E} _.
Arguments cs_rng {E} _.
Arguments config_repository {E} _.
Arguments inc_score {E} _.
Arguments inc_config {E} _.
Arguments inc_id {E} _.
Arguments population {E} _.
Arguments population_ids {E} _.
Arguments fitness {E} _.
Arguments age {E} _.
Arguments traj {E} _.
Arguments runtime {E} _.
Arguments history {E} _.
Arguments _ask_queue {E} _.
Arguments _ask_counter {E} _.
Arguments init {E} _.
Arguments trials {E} _.
Arguments trial_ids {E} _.
Arguments cur_trial_idx {E} _.

(** ** Scripted libraries

    A generator whose draws are listed in advance: [random] reads the
    next float, [integers] the next integer, [choice] the next index
    list, and the sampler of the space the next configuration.  Every
    closed evaluation below runs the kernel against such a script. *)

Module Scripted.

Record tape := {
  floats : list float;
  ints : list nat;
  choices : list (list nat)
}.

Definition next_float (t : tape) : float * tape :=
  match floats t with
  | [] => (0%float, t)
  | u :: rest => (u, {| floats := rest; ints := ints t;
                        choices := choices t |})
  end.

Definition next_int (t : tape) (high : nat) : nat * tape :=
  match ints t with
  | [] => (0%nat, t)
  | k :: rest => (k, {| floats := floats t; ints := rest;
                        choices := choices t |})
  end.

Definition next_choice (t : tape) (n size : nat) : list nat * tape :=
  match choices t with
  | [] => (seq 0 size, t)
  | c :: rest => (c, {| floats := floats t; ints := ints t;
                        choices := rest |})
  end.

Definition next_config (cs : ConfigurationSpace)
    (l : list Configuration) : Configuration * list Configuration :=
  match l with
  | [] => (get_default_configuration cs, [])
  | c :: rest => (c, rest)
  end.

Definition externals (t : tape) (sampled : list Configuration)
    : Externals :=
  {| rng_t := tape; default_rng := fun _ => t;
     rng_random := next_float;
     rng_integers := next_int;
     rng_choice := next_choice;
     cs_rng_t := list Configuration; cs_seed := fun _ => sampled;
     cs_sample := next_config;
     np_log := fun x => x; np_exp := fun x => x |}.

End Scripted.

(** ** Concrete instances

    The objects, objectives and scripts that the closed evaluations and
    the instantiations of the general theorems below are stated on. *)

(** Reading the result of a computation that returns. *)
Definition from_ok {A} (m : res A) : is_ok m = true → A :=
  match m as m0 return is_ok m0 = true → A with
  | Ok a => fun _ => a
  | Raise _ => fun H => False_rect A (Bool.diff_false_true H)
  end.

Module Scenario.

Definition result_of (fit : float) : pyresult :=
  {| r_fitness := Some fit; r_cost := Some 0%float; r_info := None |}.

(** Objectives: the first coordinate of a vector ([inf] for a nan), and
    the integer value of the only hyperparameter of a configuration. *)
Definition f_coord : objective := fun c _ =>
  match c with
  | CVector (x :: _) => result_of (if is_nan x then infinity else x)
  | _ => result_of infinity
  end.

Definition f_int : objective := fun c _ =>
  match c with
  | CConfig [(_, VInt z)] => result_of (float_of_Z z)
  | _ => result_of infinity
  end.

(** [DE(f=..., dimensions=1, pop_size=..., max_age=10,
    mutation_factor=0.5, crossover_prob=0.5, strategy=..., seed=0,
    async_strategy=...)] *)
Definition args_with (obj : option objective) (n : nat)
    (strategy async : string) : InitArgs :=
  {| a_cs := None; a_f := obj; a_dimensions := Some 1%nat;
     a_pop_size := Some n; a_max_age := 10%float;
     a_mutation_factor := Some 0.5%float;
     a_crossover_prob := Some 0.5%float;
     a_strategy := Some strategy; a_boundary_fix_type := "random";
     a_encoding := false; a_dim_map := None; a_seed := 0%Z;
     a_config_repository := None; a_async_strategy := async |}.

(** The same with [f=f_coord], [pop_size=3] and the default
    [async_strategy]. *)
Definition args (strategy : string) : InitArgs :=
  args_with (Some f_coord) 3 strategy "immediate".

(** The initial population is [[0.25], [0.5], [0.75]]; the first
    [choice] picks rows 2, 1, 0; the two draws of the first exponential
    crossover are 0.125 and 0.875; later draws are [0.0] and rows
    0, 1, 2. *)
Definition tape3 : Scripted.tape :=
  {| Scripted.floats := [0.25; 0.5; 0.75; 0.125; 0.875]%float;
     Scripted.ints := [0%nat];
     Scripted.choices := [[2; 1; 0]%nat] |}.

Definition E3 : Externals := Scripted.externals tape3 [].

(** One Ordinal hyperparameter over the five levels 0 .. 4. *)
Definition ordinal5 : ConfigurationSpace :=
  {| get_hyperparameters :=
       [OrdinalHyperparameter "o"
          [VInt 0; VInt 1; VInt 2; VInt 3; VInt 4] (VInt 0)] |}.

Definition ordinal5_hps : list (string * nat) :=
  build_hps (get_hyperparameters ordinal5) 0 [].

(** One integer hyperparameter [x] in 0 .. 10, sampled as 5, 8, 9. *)
Definition integer10 : ConfigurationSpace :=
  {| get_hyperparameters :=
       [UniformIntegerHyperparameter "x" 0 10 false 0] |}.

Definition args_int : InitArgs :=
  {| a_cs := Some integer10; a_f := Some f_int; a_dimensions := None;
     a_pop_size := Some 3%nat; a_max_age := infinity;
     a_mutation_factor := Some 0.5%float;
     a_crossover_prob := Some 0.5%float;
     a_strategy := Some "rand1_bin"%string;
     a_boundary_fix_type := "random";
     a_encoding := false; a_dim_map := None; a_seed := 0%Z;
     a_config_repository := None; a_async_strategy := "immediate" |}.

Definition tape_int : Scripted.tape :=
  {| Scripted.floats := []; Scripted.ints := [];
     Scripted.choices :=
       [[1; 2; 0]; [0; 2; 1]; [1; 2; 0];
        [0; 1; 2]; [1; 2; 0]; [1; 2; 0]]%nat |}.

Definition E_int : Externals :=
  Scripted.externals tape_int
    [[("x"%string, VInt 5)]; [("x"%string, VInt 8)];
     [("x"%string, VInt 9)]].

(** [DE(..., strategy="rand1_bin")] over [E3]: fresh, after
    [init_eval_pop], and after the selection step of index 0 on the trial
    [[0.125]] announced under id 0. *)
Definition de3 : DE E3 :=
  from_ok (DE__init__ E3 (args "rand1_bin")) eq_refl.

Definition de3_evaluated : DE E3 :=
  snd (from_ok (init_eval_pop E3 None true (reset E3 true de3)) eq_refl).

Definition de3_selected : DE E3 :=
  snd (from_ok (selection_step E3 [[0.125%float]] [0%Z] None 0
                  (([], [], []), de3_evaluated)) eq_refl).

(** ... and after [tell([0.125], 0, 1, {fitness: 0.125, cost: 0})]. *)
Definition de3_told : DE E3 :=
  from_ok (tell E3 (CVector [0.125%float]) 0 1 (result_of 0.125) None
             de3_evaluated) eq_refl.

(** [DE(..., strategy="randtobest1_bin")] after [init_eval_pop], where
    the first [choice] picks rows 1, 0, 2; and the same after the three
    parents are drawn. *)
Definition tape7 : Scripted.tape :=
  {| Scripted.floats := [0.25; 0.5; 0.75]%float; Scripted.ints := [];
     Scripted.choices := [[1; 0; 2]%nat] |}.

Definition E7 : Externals := Scripted.externals tape7 [].

Definition de7 : DE E7 :=
  snd (from_ok (self ← DE__init__ E7 (args "randtobest1_bin");
                init_eval_pop E7 None true self) eq_refl).

Definition de7_drawn : DE E7 :=
  snd (from_ok (sample_population E7 3 None de7) eq_refl).

(** [AsyncDE(..., pop_size=1, strategy="rand1_bin")] and
    [AsyncDE(..., pop_size=2, strategy="best2_bin")] over [E3], after
    [init_eval_pop]; the second also after [_sampling_pool] with the
    target [[0.25]]. *)
Definition async1 : DE E3 :=
  snd (from_ok (self ← AsyncDE__init__ E3
                         (args_with (Some f_coord) 1 "rand1_bin" "immediate");
                init_eval_pop E3 None true self) eq_refl).

Definition async2 : DE E3 :=
  snd (from_ok (self ← AsyncDE__init__ E3
                         (args_with (Some f_coord) 2 "best2_bin" "immediate");
                init_eval_pop E3 None true self) eq_refl).

Definition async2_padded : DE E3 :=
  snd (from_ok (_sampling_pool E3 None (Some [0.25%float]) async2) eq_refl).

End Scenario.

(** ** The two drivers of a run

    [run_traj]: a fresh instance driven by [run(generations=G)].
    [ask_tell_traj]: a fresh instance driven by [k] pairs of [ask] and
    [tell], each [tell] passing the objective's result for the asked
    candidate. *)

Section Drivers.
Context (E : Externals).

Definition run_traj (a : InitArgs) (G : nat) : res (list float) :=
  self ← DE__init__ E a;
  '((traj', _, _), _) ← run E G None true self;
  Ok traj'.

Definition ask_tell_pair (obj : objective) (i : nat) (self : DE E)
    : res (DE E) :=
  '((config, trial_id, target_idx), self) ← ask E None self;
  tell E config trial_id (Z.of_nat target_idx) (obj config None) None self.

Definition ask_tell_traj (a : InitArgs) (obj : objective) (k : nat)
    : res (list float) :=
  self ← DE__init__ E a;
  self ← for_each (ask_tell_pair obj) (seq 0 k) self;
  Ok (traj self).

End Drivers.

(** * Notions the facts are stated with *)

Section Frame.
Context {E : Externals}.

Record same_core (s s' : DE E) : Prop := {
  sc_params : params s' = params s;
  sc_inc_score : inc_score s' = inc_score s;
  sc_inc_config : inc_config s' = inc_config s;
  sc_inc_id : inc_id s' = inc_id s;
  sc_population : length <$> population s' = length <$> population s;
  sc_population_ids : population_ids s' = population_ids s;
  sc_fitness : fitness s' = fitness s;
  sc_age : age s' = age s;
  sc_traj : traj s' = traj s;
  sc_runtime : runtime s' = runtime s;
  sc_history : history s' = history s;
  sc_ask_queue : _ask_queue s' = _ask_queue s;
  sc_ask_counter : _ask_counter s' = _ask_counter s;
  sc_init : init s' = init s;
  sc_trials : trials s' = trials s;
  sc_trial_ids : trial_ids s' = trial_ids s;
  sc_cur_trial_idx : cur_trial_idx s' = cur_trial_idx s
}.
End Frame.

Definition key (x : spec_float) : Z * Z * Z :=
  match x with
  | S754_zero _ => (0, 0, 0)%Z
  | S754_infinity s => (if s then -2 else 2, 0, 0)%Z
  | S754_nan => (3, 0, 0)%Z
  | S754_finite s m e => if s then (-1, - e, Z.neg m)%Z else (1, e, Z.pos m)%Z
  end.

Definition lexcmp (a b : Z * Z * Z) : comparison :=
  let '(a1, a2, a3) := a in
  let '(b1, b2, b3) := b in
  match (a1 ?= b1)%Z with
  | Eq => match (a2 ?= b2)%Z with Eq => (a3 ?= b3)%Z | c => c end
  | c => c
  end.

Definition lexle (a b : Z * Z * Z) : Prop :=
  let '(a1, a2, a3) := a in
  let '(b1, b2, b3) := b in
  (a1 < b1 ∨ (a1 = b1 ∧ (a2 < b2 ∨ (a2 = b2 ∧ a3 <= b3))))%Z.

Definition lexlt (a b : Z * Z * Z) : Prop :=
  let '(a1, a2, a3) := a in
  let '(b1, b2, b3) := b in
  (a1 < b1 ∨ (a1 = b1 ∧ (a2 < b2 ∨ (a2 = b2 ∧ a3 < b3))))%Z.

Definition K (x : float) : Z * Z * Z := key (Prim2SF x).
Definition nonnan (x : float) : Prop := Prim2SF x ≠ S754_nan.

(** [fle a b]: [a <= b] holds in binary64. *)
Definition fle (a b : float) : Prop := (a <=? b)%float = true.

Definition objective_nonnan (p : Params) : Prop :=
  ∀ obj c fid fit,
    f p = Some obj → r_fitness (obj c fid) = Some fit → is_nan fit = false.

Definition scores_ok {E} (s : DE E) : Prop :=
  ∃ rows fits,
    population s = Some rows ∧ fitness s = Some fits
    ∧ Forall nonnan fits ∧ nonnan (inc_score s)
    ∧ (fits ≠ [] → ∃ x, x ∈ fits ∧ fle x (inc_score s)).

Inductive descends : float → list float → float → Prop :=
| descends_nil a : descends a [] a
| descends_cons a b l c :
    fle b a → descends b l c → descends a (b :: l) c.

Definition non_increasing (l : list float) : Prop :=
  ∀ i a b, l !! i = Some a → l !! S i = Some b → fle b a.

Section RunDefs.
Context {E : Externals}.

(** What a run and the ask/tell fields around it leave alone. *)
Record same_run (s s' : DE E) : Prop := {
  sr_params : params s' = params s;
  sr_inc_score : inc_score s' = inc_score s;
  sr_population : length <$> population s' = length <$> population s;
  sr_population_ids : population_ids s' = population_ids s;
  sr_fitness : fitness s' = fitness s;
  sr_age : age s' = age s;
  sr_traj : traj s' = traj s;
  sr_runtime : runtime s' = runtime s;
  sr_history : history s' = history s;
  sr_ask_queue : _ask_queue s' = _ask_queue s
}.

(** The invariant of the evaluation loop of [init_eval_pop] before
    index [i]. *)
Definition init_ok (i : nat) (s : DE E) : Prop :=
  ∃ rows fits,
    population s = Some rows ∧ fitness s = Some fits
    ∧ Forall nonnan fits ∧ nonnan (inc_score s)
    ∧ (fits ≠ [] → ∃ j x, fits !! j = Some x ∧ fle x (inc_score s)
                          ∧ ((j < i)%nat ∨ fle infinity (inc_score s))).

(** The operations of a run after its initial population. *)
Inductive run_op :=
| OpSelection (trials : list ndarray) (trial_ids : list Z)
    (fidelity : option float)
| OpEvolve (fidelity : option float) (best : option ndref)
    (alt_pop : option (list (option ndarray)))
| OpAsk (fidelity : option float)
| OpTell (trial : candidate) (trial_id target_idx : Z) (result : pyresult)
    (fidelity : option float).

(** One operation, with the incumbent scores it records: the local
    [traj] of a selection, the entry [tell] appends. *)
Definition do_op (op : run_op) (self : DE E) : res (list float * DE E) :=
  match op with
  | OpSelection trials trial_ids fidelity =>
      '((traj', _, _), self) ← selection E trials trial_ids fidelity self;
      Ok (traj', self)
  | OpEvolve fidelity best alt_pop =>
      '((traj', _, _), self) ← evolve_generation E fidelity best alt_pop self;
      Ok (traj', self)
  | OpAsk fidelity =>
      '(_, self) ← ask E fidelity self; Ok ([], self)
  | OpTell trial trial_id target_idx result fidelity =>
      self ← tell E trial trial_id target_idx result fidelity self;
      Ok ([inc_score self], self)
  end.

Fixpoint do_ops (ops : list run_op) (self : DE E)
    : res (list float * DE E) :=
  match ops with
  | [] => Ok ([], self)
  | op :: rest =>
      '(scores, self) ← do_op op self;
      '(scores', self) ← do_ops rest self;
      Ok (scores ++ scores', self)
  end.

(** A single run: [reset], the initial population (evaluated or not),
    then any operations. *)
Definition single_run (fidelity : option float) (eval : bool)
    (ops : list run_op) (self : DE E) : res (list float * DE E) :=
  '((traj', _, _), self) ← init_eval_pop E fidelity eval (reset E true self);
  '(scores, self) ← do_ops ops self;
  Ok (traj' ++ scores, self).

Definition tell_nonnan (op : run_op) : Prop :=
  match op with
  | OpTell _ _ _ result _ =>
      ∀ fit, r_fitness result = Some fit → is_nan fit = false
  | _ => True
  end.
End RunDefs.

(** The donor as the claim words it, with a fourth parent [r4]. *)
Definition spec_randtobest1 (F : float) (best r1 r2 r3 r4 : ndarray)
    : ndarray :=
  vadd (vadd r1 (vscale F (vsub best r2))) (vscale F (vsub r3 r4)).

(** The donor the code computes from its three parents. *)
Definition code_randtobest1 (F : float) (best r1 r2 r3 : ndarray)
    : ndarray :=
  vadd (vadd r1 (vscale F (vsub best r1))) (vscale F (vsub r2 r3)).

Definition known_mutation (ms : option string) : bool :=
  str_in ms ["rand1"; "rand2"; "rand2dir"; "best1"; "best2";
             "currenttobest1"; "randtobest1"]%string.

Definition known_crossover (xs : option string) : bool :=
  str_in xs ["bin"; "exp"]%string.

Definition valid_async_strategy (x : string) : bool :=
  str_in (Some x) ["immediate"; "random"; "worst"; "deferred"]%string.

(** * Facts *)

(** ** Inversion of a computation that returns *)

Lemma bind_Ok {A B} (m : res A) (k : A → res B) (b : B) :
  m ≫= k = Ok b → ∃ a, m = Ok a ∧ k a = Ok b.
Proof. destruct m; simpl; [eauto | discriminate]. Qed.

Lemma fmap_Ok {A B} (g : A → B) (m : res A) (b : B) :
  g <$> m = Ok b → ∃ a, m = Ok a ∧ b = g a.
Proof. destruct m; simpl; [intros [= <-]; eauto | discriminate]. Qed.

Lemma Ok_inj {A} (a b : A) : Ok a = Ok b → a = b.
Proof. congruence. Qed.

Ltac minv1 :=
  match goal with
  | H : Raise _ = Ok _ |- _ => discriminate H
  | H : Ok _ = Ok _ |- _ => apply Ok_inj in H
  | H : (_, _) = (_, _) |- _ =>
      let H1 := fresh "Hq" in
      apply pair_equal_spec in H as [H1 H]
  | H : mbind _ _ = Ok _ |- _ =>
      let a := fresh "a" in let Ha := fresh "Hq" in
      apply bind_Ok in H as (a & Ha & H); cbv beta in H
  | H : fmap _ _ = Ok _ |- _ =>
      let a := fresh "a" in let Ha := fresh "Hq" in
      apply fmap_Ok in H as (a & Ha & H)
  | H : (let '(_, _) := ?p in _) = Ok _ |- _ => destruct p eqn:?
  | H : (if ?c then _ else _) = Ok _ |- _ => destruct c eqn:?
  | H : match ?x with _ => _ end = Ok _ |- _ => destruct x eqn:?
  end.
Ltac minv := repeat (minv1; try subst).


(** ** What each method leaves alone *)

Section FrameFacts.
Context {E : Externals}.
Implicit Types s : DE E.

Lemma sc_refl s : same_core s s.
Proof. by constructor. Qed.

Lemma sc_trans s1 s2 s3 : same_core s1 s2 → same_core s2 s3 → same_core s1 s3.
Proof. intros [] []; constructor; congruence. Qed.

Lemma sc_set_rng s0 s g : same_core s0 s → same_core s0 (set_rng E g s).
Proof. intros []; by constructor. Qed.

Lemma sc_set_cs_rng s0 s g : same_core s0 s → same_core s0 (set_cs_rng E g s).
Proof. intros []; by constructor. Qed.

Lemma sc_set_config_repository s0 s g :
  same_core s0 s → same_core s0 (set_config_repository E g s).
Proof. intros []; by constructor. Qed.

Lemma sc_set_population s0 s rows rows' :
  same_core s0 s → population s = Some rows → length rows' = length rows →
  same_core s0 (set_population E (Some rows') s).
Proof.
  intros Hsc Hp Hl. pose proof (sc_population _ _ Hsc) as Hlen.
  destruct Hsc; constructor; simpl; try done.
  rewrite <- Hlen, Hp. simpl. by rewrite Hl.
Qed.

Lemma need_Ok {A} (o : option A) a : need o = Ok a → o = Some a.
Proof. destruct o; simpl; congruence. Qed.

Lemma setitem_length {A} (l : list A) i x l' :
  setitem l i x = Ok l' → length l' = length l.
Proof.
  unfold setitem. destruct (_ <? _)%nat; intros [= <-].
  by rewrite length_insert.
Qed.

End FrameFacts.

(** Closing a frame goal: walk back along the known frame facts and the
    setters of the fields outside the core. *)
Ltac sc_finish :=
  repeat first
    [ assumption
    | apply sc_refl
    | apply sc_set_rng
    | apply sc_set_cs_rng
    | apply sc_set_config_repository
    | eapply sc_trans; [ | eassumption ] ].

Ltac sc_lemma H := fail.
Ltac sc_fwd :=
  repeat match goal with
  | H : _ = Ok (_, _) |- _ => sc_lemma H
  end.
Ltac sc_auto := minv; sc_fwd; sc_finish.

Section FrameFacts1.
Context {E : Externals}.
Implicit Types s : DE E.

Lemma map_to_original_sc s v r s' :
  map_to_original E v s = Ok (r, s') → same_core s s'.
Proof. unfold map_to_original. intros H. sc_auto. Qed.

Lemma init_population_sc s n r s' :
  init_population E n s = Ok (r, s') → same_core s s'.
Proof. unfold init_population. intros H. sc_auto. Qed.

Lemma choice_sc s n k r s' :
  choice E n k s = Ok (r, s') → same_core s s'.
Proof. unfold choice. intros H. sc_auto. Qed.

Lemma store_sc s r a r' s' :
  store E r a s = Ok (r', s') → same_core s s'.
Proof.
  unfold store. intros H. minv; [|apply sc_refl].
  eapply sc_set_population; eauto using sc_refl, need_Ok, setitem_length.
Qed.

End FrameFacts1.

Ltac sc_lemma H ::=
  first [ apply map_to_original_sc in H
        | apply init_population_sc in H
        | apply choice_sc in H
        | apply store_sc in H ].

Section FrameFacts2.
Context {E : Externals}.
Implicit Types s : DE E.

Lemma sample_population_sc s n alt r s' :
  sample_population E n alt s = Ok (r, s') → same_core s s'.
Proof. unfold sample_population. intros H. sc_auto. Qed.

Lemma boundary_check_sc s r r' s' :
  boundary_check E r s = Ok (r', s') → same_core s s'.
Proof. unfold boundary_check. intros H. sc_auto. Qed.

Lemma _sampling_pool_sc s alt t r s' :
  _sampling_pool E alt t s = Ok (r, s') → same_core s s'.
Proof. unfold _sampling_pool. intros H. sc_auto. Qed.

Lemma f_objective_sc s x fid r s' :
  f_objective E x fid s = Ok (r, s') → same_core s s'.
Proof. unfold f_objective. intros H. sc_auto. Qed.

Lemma to_candidate_sc s x r s' :
  to_candidate E x s = Ok (r, s') → same_core s s'.
Proof. unfold to_candidate. intros H. sc_auto. Qed.

Lemma tell_vector_sc s x r s' :
  tell_vector E x s = Ok (r, s') → same_core s s'.
Proof. unfold tell_vector. intros H. sc_auto. Qed.

Lemma crossover_sc s t m r s' :
  crossover E t m s = Ok (r, s') → same_core s s'.
Proof.
  unfold crossover, crossover_bin, crossover_exp. intros H. sc_auto.
Qed.

End FrameFacts2.

Ltac sc_lemma H ::=
  first [ apply map_to_original_sc in H
        | apply init_population_sc in H
        | apply choice_sc in H
        | apply store_sc in H
        | apply sample_population_sc in H
        | apply boundary_check_sc in H
        | apply _sampling_pool_sc in H
        | apply f_objective_sc in H
        | apply to_candidate_sc in H
        | apply tell_vector_sc in H
        | apply crossover_sc in H ].

Section FrameFacts3.
Context {E : Externals}.
Implicit Types s : DE E.

Lemma _sample_population_sc s n alt t r s' :
  _sample_population E n alt t s = Ok (r, s') → same_core s s'.
Proof. unfold _sample_population. intros H. sc_auto. Qed.

Lemma mutation_via_sc sample s cur best r s' :
  (∀ n s1 r1 s2, sample n s1 = Ok (r1, s2) → same_core s1 s2) →
  mutation_via E sample cur best s = Ok (r, s') → same_core s s'.
Proof.
  unfold mutation_via. intros Hsample H.
  minv;
    match goal with
    | H : sample _ _ = Ok _ |- _ => apply Hsample in H
    end; sc_finish.
Qed.

Lemma mutation_sc s cur best alt r s' :
  mutation E cur best alt s = Ok (r, s') → same_core s s'.
Proof.
  unfold mutation, DE_mutation, AsyncDE_mutation. intros H.
  destruct (class_ _); minv.
  all: eapply mutation_via_sc; [|eassumption].
  all: intros n1 s1 r1 s2 Hx; cbv beta in Hx.
  all: first [ by eapply sample_population_sc
             | by eapply _sample_population_sc ].
Qed.

Lemma make_trial_sc fid best alt j acc s acc' s' :
  make_trial E fid best alt j (acc, s) = Ok (acc', s') → same_core s s'.
Proof.
  unfold make_trial. intros H. minv.
  repeat match goal with
         | H : mutation _ _ _ _ _ = Ok _ |- _ => apply mutation_sc in H
         end.
  sc_fwd. sc_finish.
Qed.

End FrameFacts3.

(** ** The order of binary64 away from nan

    [<=?] and [<?] on floats that are not nan are the lexicographic
    order of [key], which is what makes [fle] a total preorder there. *)

Lemma SFcompare_key x y :
  x ≠ S754_nan → y ≠ S754_nan →
  SFcompare x y = Some (lexcmp (key x) (key y)).
Proof.
  intros Hx Hy.
  destruct x as [sx|sx| |sx mx ex], y as [sy|sy| |sy my ey];
    try congruence; try (destruct sx; reflexivity);
    try (destruct sy; reflexivity);
    try (destruct sx, sy; reflexivity).
  destruct sx, sy; simpl; try reflexivity.
  rewrite Z.compare_opp, (Z.compare_antisym ex ey).
  destruct (ex ?= ey)%Z; reflexivity.
Qed.

Lemma lexcmp_le a b : lexcmp a b ≠ Gt ↔ lexle a b.
Proof.
  destruct a as [[a1 a2] a3], b as [[b1 b2] b3]; simpl.
  destruct (Z.compare_spec a1 b1); [destruct (Z.compare_spec a2 b2);
    [destruct (Z.compare_spec a3 b3)|..]|..];
    split; intros; try congruence; try lia.
Qed.

Lemma lexcmp_lt a b : lexcmp a b = Lt ↔ lexlt a b.
Proof.
  destruct a as [[a1 a2] a3], b as [[b1 b2] b3]; simpl.
  destruct (Z.compare_spec a1 b1); [destruct (Z.compare_spec a2 b2);
    [destruct (Z.compare_spec a3 b3)|..]|..];
    split; intros; try congruence; try lia.
Qed.

Lemma leb_key x y :
  (x <=? y)%float = true ↔ nonnan x ∧ nonnan y ∧ lexle (K x) (K y).
Proof.
  rewrite FloatAxioms.leb_spec. unfold SFleb, nonnan, K.
  destruct (Prim2SF x) eqn:Hx, (Prim2SF y) eqn:Hy;
    try (simpl; split; [discriminate | intros (? & ? & ?); congruence]);
    rewrite SFcompare_key by discriminate;
    rewrite <- lexcmp_le;
    (split; [intros H; repeat split; try discriminate;
             destruct (lexcmp _ _); congruence
            | intros (_ & _ & H); destruct (lexcmp _ _); congruence]).
Qed.

Lemma ltb_key x y :
  (x <? y)%float = true ↔ nonnan x ∧ nonnan y ∧ lexlt (K x) (K y).
Proof.
  rewrite FloatAxioms.ltb_spec. unfold SFltb, nonnan, K.
  destruct (Prim2SF x) eqn:Hx, (Prim2SF y) eqn:Hy;
    try (simpl; split; [discriminate | intros (? & ? & ?); congruence]);
    rewrite SFcompare_key by discriminate;
    rewrite <- lexcmp_lt;
    (split; [intros H; repeat split; try discriminate;
             destruct (lexcmp _ _); congruence
            | intros (_ & _ & H); destruct (lexcmp _ _); congruence]).
Qed.

Lemma nonnan_self x : nonnan x ↔ (x <=? x)%float = true.
Proof.
  rewrite leb_key. split; [|tauto]. intros H. repeat split; try done.
  unfold lexle. destruct (K x) as [[a b] c]. lia.
Qed.

Lemma is_nan_false x : is_nan x = false ↔ nonnan x.
Proof.
  unfold is_nan. rewrite negb_false_iff, FloatAxioms.eqb_spec.
  unfold SFeqb, nonnan.
  destruct (Prim2SF x) eqn:Hx; try (split; [discriminate|congruence]).
  all: rewrite SFcompare_key by discriminate.
  all: split; [discriminate|intros _].
  all: destruct (key _) as [[a b] c]; simpl; by rewrite !Z.compare_refl.
Qed.

Lemma nonnan_infinity : nonnan infinity.
Proof. unfold nonnan. vm_compute. discriminate. Qed.

Lemma fle_refl x : nonnan x → fle x x.
Proof. apply nonnan_self. Qed.

Lemma fle_trans x y z : fle x y → fle y z → fle x z.
Proof.
  unfold fle. rewrite !leb_key. intros (? & ? & H1) (? & ? & H2).
  repeat split; try done. unfold lexle in *.
  destruct (K x) as [[? ?] ?], (K y) as [[? ?] ?], (K z) as [[? ?] ?]. lia.
Qed.

Lemma flt_fle x y : (x <? y)%float = true → fle x y.
Proof.
  unfold fle. rewrite ltb_key, leb_key. intros (? & ? & H).
  repeat split; try done. unfold lexle, lexlt in *.
  destruct (K x) as [[? ?] ?], (K y) as [[? ?] ?]. lia.
Qed.

Lemma fle_total x y : nonnan x → nonnan y → (x <=? y)%float = false → fle y x.
Proof.
  unfold fle. intros Hx Hy H. apply not_true_iff_false in H.
  rewrite leb_key in *. repeat split; try done.
  unfold lexle in *. destruct (K x) as [[? ?] ?], (K y) as [[? ?] ?].
  destruct (decide (lexle (z2, z3, z4) (z, z0, z1))) as [Hd|Hd]; [exact Hd|].
  exfalso. apply H. repeat split; try done. unfold lexle in *. lia.
Qed.

Lemma fle_nonnan_l x y : fle x y → nonnan x.
Proof. unfold fle. rewrite leb_key. tauto. Qed.
Lemma fle_nonnan_r x y : fle x y → nonnan y.
Proof. unfold fle. rewrite leb_key. tauto. Qed.

Lemma key_inf_top x : nonnan x → lexle (K x) (K infinity).
Proof.
  unfold nonnan, K. replace (Prim2SF infinity) with (S754_infinity false) by (vm_compute; reflexivity).
  destruct (Prim2SF x) as [s|s| |s m e]; try congruence; simpl; try (destruct s; simpl; lia).
Qed.

Lemma fle_infinity x : nonnan x → fle x infinity.
Proof.
  intros H. unfold fle. rewrite leb_key.
  auto using nonnan_infinity, key_inf_top.
Qed.

Lemma argmin_from_spec rest : ∀ mp mi i,
  nonnan mp → Forall nonnan rest →
  let r := argmin_from mp mi i rest in
  (r = mi ∧ Forall (fle mp) rest)
  ∨ (∃ x, rest !! (r - i)%nat = Some x ∧ (i <= r)%nat ∧ fle x mp
          ∧ Forall (fle x) rest).
Proof.
  induction rest as [|x rest IH]; intros mp mi i Hmp Hall; simpl.
  { left. split; [done|constructor]. }
  apply Forall_cons in Hall as [Hx Hall].
  destruct (mp <=? x)%float eqn:Hle; simpl.
  - destruct (IH mp mi (S i) Hmp Hall) as [[-> Hr]|(y & Hy & Hi & Hym & Hr)].
    + left. split; [done|]. by constructor.
    + right. exists y. split_and!.
      * replace (argmin_from mp mi (S i) rest - i)%nat
          with (S (argmin_from mp mi (S i) rest - S i)) by lia. done.
      * lia.
      * done.
      * constructor; [|done]. by eapply fle_trans.
  - apply is_nan_false in Hx as Hx'. rewrite Hx'.
    pose proof (fle_total _ _ Hmp Hx Hle) as Hxm.
    destruct (IH x i (S i) Hx Hall) as [[-> Hr]|(y & Hy & Hi & Hyx & Hr)].
    + right. exists x. rewrite Nat.sub_diag. split_and!; try done.
      constructor; [by apply fle_refl|done].
    + right. exists y. split_and!.
      * replace (argmin_from x i (S i) rest - i)%nat
          with (S (argmin_from x i (S i) rest - S i)) by lia. done.
      * lia.
      * by eapply fle_trans.
      * constructor; done.
Qed.

Lemma np_argmin_spec l :
  l ≠ [] → Forall nonnan l →
  ∃ k m, np_argmin l = Ok k ∧ l !! k = Some m ∧ Forall (fle m) l.
Proof.
  destruct l as [|x rest]; [done|]. intros _ Hall.
  apply Forall_cons in Hall as [Hx Hall]. simpl.
  apply is_nan_false in Hx as Hx'. rewrite Hx'.
  destruct (argmin_from_spec rest x 0%nat 1%nat Hx Hall)
    as [[-> Hr]|(y & Hy & Hi & Hyx & Hr)].
  - exists 0%nat, x. split_and!; try done. constructor; [by apply fle_refl|done].
  - eexists _, y. split_and!; [done| |by constructor].
    destruct (argmin_from x 0 1 rest) as [|r]; [lia|].
    simpl in *. by rewrite Nat.sub_0_r in Hy.
Qed.

Lemma np_argmin_Ok l k : np_argmin l = Ok k → l ≠ [].
Proof. by destruct l. Qed.

Lemma descends_app a l1 b l2 c :
  descends a l1 b → descends b l2 c → descends a (l1 ++ l2) c.
Proof.
  induction 1; simpl; [done|]. intros. constructor; auto.
Qed.

Lemma descends_one a b : fle b a → descends a [b] b.
Proof. intros. by repeat constructor. Qed.

Lemma descends_non_increasing a l c :
  descends a l c → non_increasing (a :: l).
Proof.
  induction 1 as [a|a b l c Hba Hd IH]; intros i x y Hx Hy.
  - destruct i; simpl in *; congruence.
  - destruct i as [|i]; simpl in *.
    + congruence.
    + by eapply IH.
Qed.

Lemma getitem_Ok {A} (l : list A) i x : getitem l i = Ok x → l !! i = Some x.
Proof. unfold getitem. destruct (l !! i); congruence. Qed.

Lemma setitem_Ok {A} (l : list A) i x l' :
  setitem l i x = Ok l' → (i < length l)%nat ∧ l' = <[i := x]> l.
Proof.
  unfold setitem. destruct (i <? length l)%nat eqn:Hi; [|discriminate].
  apply Nat.ltb_lt in Hi. intros [= <-]. done.
Qed.

Lemma getitemZ_Ok {A} (l : list A) i x :
  getitemZ l i = Ok x → ∃ k, py_index (length l) i = Ok k ∧ l !! k = Some x.
Proof. unfold getitemZ. intros H. minv. eauto using getitem_Ok. Qed.

Lemma setitemZ_Ok {A} (l : list A) i x l' :
  setitemZ l i x = Ok l' →
  ∃ k, py_index (length l) i = Ok k ∧ (k < length l)%nat ∧ l' = <[k := x]> l.
Proof.
  unfold setitemZ. intros H. minv. apply setitem_Ok in H as [? ?]. eauto.
Qed.

(** ** The incumbent score along a run *)

Section Steps.
Context {E : Externals}.
Implicit Types s : DE E.

Lemma f_objective_result s x fid res s' :
  f_objective E x fid s = Ok (res, s') →
  ∃ obj c, f (params s) = Some obj ∧ res = obj c fid.
Proof. unfold f_objective. intros H. minv; eauto. Qed.

Lemma one_vs_one_scores i trial tid fit s s' rows fits :
  one_vs_one E i trial tid fit s = Ok s' → nonnan fit →
  population s = Some rows → fitness s = Some fits → Forall nonnan fits →
  ∃ rows' fits',
    population s' = Some rows' ∧ fitness s' = Some fits'
    ∧ Forall nonnan fits' ∧ length fits' = length fits
    ∧ (∀ j x, fits !! j = Some x → ∃ x', fits' !! j = Some x' ∧ fle x' x)
    ∧ inc_score s' = inc_score s ∧ params s' = params s
    ∧ traj s' = traj s.
Proof.
  unfold one_vs_one. intros H Hfit Hrows Hfits Hall.
  rewrite Hfits in H. simpl in H. minv.
  - apply need_Ok in Hq0. rewrite Hrows in Hq0. injection Hq0 as <-.
    apply getitemZ_Ok in Hq as (k & Hk & Hpar).
    apply setitemZ_Ok in Hq4 as (k' & Hk' & Hlt & ->).
    rewrite Hk in Hk'. injection Hk' as <-.
    eexists _, _. simpl. split_and!; try done.
    + apply Forall_insert; done.
    + by rewrite length_insert.
    + intros j x Hj. destruct (decide (j = k)) as [->|Hne].
      * exists fit. rewrite list_lookup_insert_eq by done.
        split; [done|]. congruence.
      * exists x. rewrite list_lookup_insert_ne by done. split; [done|].
        apply fle_refl. eapply Forall_lookup_1; eauto.
  - exists rows, fits. simpl. split_and!; try done.
    intros j x Hj. exists x. split; [done|].
    apply fle_refl. eapply Forall_lookup_1; eauto.
Qed.

End Steps.

Section Steps2.
Context {E : Externals}.
Implicit Types s : DE E.

Lemma scores_ok_same_core s s' :
  same_core s s' → scores_ok s → scores_ok s'.
Proof.
  intros Hsc (rows & fits & Hp & Hf & Hall & Hinc & Hw).
  pose proof (sc_population _ _ Hsc) as Hlen.
  rewrite Hp in Hlen. simpl in Hlen.
  destruct (population s') as [rows'|] eqn:Hp'; [|done].
  exists rows', fits.
  rewrite (sc_fitness _ _ Hsc), (sc_inc_score _ _ Hsc). done.
Qed.

Lemma selection_step_scores trials tids fid i tr rt h s tr' rt' h' s' :
  selection_step E trials tids fid i ((tr, rt, h), s)
    = Ok ((tr', rt', h'), s') →
  objective_nonnan (params s) → scores_ok s →
  tr' = tr ++ [inc_score s'] ∧ fle (inc_score s') (inc_score s)
  ∧ scores_ok s' ∧ params s' = params s.
Proof.
  unfold selection_step. intros H Hobj Hok.
  apply bind_Ok in H as (trial & Htrial & H). cbv beta in H.
  apply bind_Ok in H as ([res s1] & Hf & H). cbv beta in H.
  apply bind_Ok in H as (fit & Hfit & H). cbv beta in H.
  apply bind_Ok in H as (cost & Hcost & H). cbv beta in H.
  apply bind_Ok in H as (tid & Htid & H). cbv beta in H.
  apply bind_Ok in H as (repo & Hrepo & H). cbv beta in H.
  apply bind_Ok in H as (s2 & Hsel & H). cbv beta in H.
  apply bind_Ok in H as (fits2 & Hfits2 & H). cbv beta in H.
  apply bind_Ok in H as (fi & Hfi & H). cbv beta in H.
  apply Ok_inj in H. injection H as <- <- <- <-.
  apply need_Ok in Hfit, Hcost, Hfits2. apply getitem_Ok in Hfi.
  destruct (f_objective_result _ _ _ _ _ Hf) as (obj & c & Hobj' & ->).
  pose proof (Hobj _ _ _ _ Hobj' Hfit) as Hnn. apply is_nan_false in Hnn.
  apply f_objective_sc in Hf.
  pose proof (scores_ok_same_core _ _ Hf Hok) as (rows & fits & Hp & Hfs & Hall & Hinc & Hw).
  eapply (one_vs_one_scores _ _ _ _ _ _ rows fits) in Hsel
    as (rows' & fits' & Hp' & Hfs' & Hall' & Hlen & Hmono & Hinc' & Hpar
        & Htraj);
    [|done..].
  rewrite Hfs' in Hfits2. injection Hfits2 as <-.
  simpl in Hinc', Hpar.
  assert (Hnfi : nonnan fi) by (eapply Forall_lookup_1; eauto).
  assert (Hincs2 : nonnan (inc_score s2)) by (rewrite Hinc'; done).
  assert (Hw2 : fits' ≠ [] → ∃ x, x ∈ fits' ∧ fle x (inc_score s2)).
  { intros _. destruct Hw as (x & Hx & Hxi).
    { intros ->. apply lookup_lt_Some in Hfi. rewrite Hlen in Hfi.
      simpl in Hfi. lia. }
    apply list_elem_of_lookup in Hx as [j Hj].
    destruct (Hmono _ _ Hj) as (x' & Hj' & Hle).
    exists x'. split; [by eapply list_elem_of_lookup_2|].
    rewrite Hinc'. by eapply fle_trans. }
  pose proof (sc_inc_score _ _ Hf) as Hinc1.
  pose proof (sc_params _ _ Hf) as Hpar1.
  destruct (fi <? inc_score s2)%float eqn:Hlt; simpl.
  - split_and!; try done.
    + rewrite <- Hinc1, <- Hinc'. by apply flt_fle.
    + exists rows', fits'. simpl. split_and!; try done.
      intros _. exists fi.
      split; [by eapply list_elem_of_lookup_2|by apply fle_refl].
    + congruence.
  - split_and!; try done.
    + rewrite Hinc', Hinc1. apply fle_refl. by rewrite <- Hinc1.
    + by exists rows', fits'.
    + congruence.
Qed.

Lemma selection_loop_scores trials tids fid idxs : ∀ tr rt h s tr' rt' h' s',
  for_each (selection_step E trials tids fid) idxs ((tr, rt, h), s)
    = Ok ((tr', rt', h'), s') →
  objective_nonnan (params s) → scores_ok s →
  ∃ obs, tr' = tr ++ obs ∧ descends (inc_score s) obs (inc_score s')
         ∧ scores_ok s' ∧ params s' = params s.
Proof.
  induction idxs as [|i idxs IH]; intros tr rt h s tr' rt' h' s' H Hobj Hok.
  - simpl in H. injection H as <- <- <- <-. exists [].
    rewrite app_nil_r. split_and!; try done. constructor.
  - simpl in H. apply bind_Ok in H as ([[[tr1 rt1] h1] s1] & Hstep & H).
    apply selection_step_scores in Hstep as (-> & Hle & Hok1 & Hpar1); [|done..].
    apply IH in H as (obs & -> & Hd & Hok' & Hpar'); [|by rewrite Hpar1|done].
    exists (inc_score s1 :: obs). rewrite <- app_assoc. simpl.
    split_and!; try done; [by constructor|congruence].
Qed.

Lemma tell_scores trial tid idx result fid s s' fit :
  tell E trial tid idx result fid s = Ok s' →
  r_fitness result = Some fit → nonnan fit → scores_ok s →
  fle (inc_score s') (inc_score s) ∧ scores_ok s' ∧ params s' = params s
  ∧ traj s' = traj s ++ [inc_score s'].
Proof.
  unfold tell. intros H Hfit Hnn Hok.
  apply bind_Ok in H as ([v s1] & Hv & H). cbv beta in H.
  rewrite Hfit in H. simpl in H.
  apply bind_Ok in H as (cost & Hcost & H). cbv beta in H.
  apply bind_Ok in H as (repo & Hrepo & H). cbv beta in H.
  apply bind_Ok in H as (s2 & Hsel & H). cbv beta in H.
  apply bind_Ok in H as (fits2 & Hfits2 & H). cbv beta in H.
  apply bind_Ok in H as (k & Hk & H). cbv beta in H.
  apply bind_Ok in H as (m & Hm & H). cbv beta in H.
  apply bind_Ok in H as (rows2 & Hrows2 & H). cbv beta in H.
  apply bind_Ok in H as (row & Hrow & H). cbv beta in H.
  apply bind_Ok in H as (ids2 & Hids2 & H). cbv beta in H.
  apply bind_Ok in H as (bid & Hbid & H). cbv beta in H.
  apply Ok_inj in H. subst s'. simpl.
  apply need_Ok in Hfits2, Hrows2. apply getitem_Ok in Hm.
  apply tell_vector_sc in Hv.
  pose proof (scores_ok_same_core _ _ Hv Hok)
    as (rows & fits & Hp & Hfs & Hall & Hinc & Hw).
  eapply (one_vs_one_scores _ _ _ _ _ _ rows fits) in Hsel
    as (rows' & fits' & Hp' & Hfs' & Hall' & Hlen & Hmono & Hinc' & Hpar
        & Htraj);
    [|done..].
  rewrite Hfs' in Hfits2. injection Hfits2 as <-.
  simpl in Hinc', Hpar.
  pose proof (np_argmin_Ok _ _ Hk) as Hne.
  destruct (np_argmin_spec _ Hne Hall') as (k' & m' & Hk' & Hm' & Hmin).
  rewrite Hk in Hk'. injection Hk' as <-.
  rewrite Hm in Hm'. injection Hm' as <-.
  assert (Hnm : nonnan m) by (eapply Forall_lookup_1; eauto).
  split_and!.
  - destruct Hw as (x & Hx & Hxi).
    { intros ->. apply lookup_lt_Some in Hm. rewrite Hlen in Hm.
      simpl in Hm. lia. }
    apply list_elem_of_lookup in Hx as [j Hj].
    destruct (Hmono _ _ Hj) as (x' & Hj' & Hle).
    rewrite <- (sc_inc_score _ _ Hv).
    eapply fle_trans; [|exact Hxi]. eapply fle_trans; [|exact Hle].
    eapply Forall_lookup_1 in Hmin; eauto.
  - exists rows', fits'. simpl. split_and!; try done.
    intros _. exists m. split; [by eapply list_elem_of_lookup_2|by apply fle_refl].
  - rewrite Hpar. simpl. apply Hv.
  - rewrite Htraj. simpl. by rewrite (sc_traj _ _ Hv).
Qed.
End Steps2.

Section Steps3.
Context {E : Externals}.
Implicit Types s : DE E.

Lemma sr_of_sc s s' : same_core s s' → same_run s s'.
Proof. intros []; by constructor. Qed.

Lemma sr_trans s1 s2 s3 : same_run s1 s2 → same_run s2 s3 → same_run s1 s3.
Proof. intros [] []; constructor; congruence. Qed.

Lemma scores_ok_same_run s s' : same_run s s' → scores_ok s → scores_ok s'.
Proof.
  intros Hsr (rows & fits & Hp & Hf & Hall & Hinc & Hw).
  pose proof (sr_population _ _ Hsr) as Hlen.
  rewrite Hp in Hlen. simpl in Hlen.
  destruct (population s') as [rows'|] eqn:Hp'; [|done].
  exists rows', fits.
  rewrite (sr_fitness _ _ Hsr), (sr_inc_score _ _ Hsr). done.
Qed.

Lemma make_trial_loop_sc fid best alt idxs : ∀ acc s acc' s',
  for_each (make_trial E fid best alt) idxs (acc, s) = Ok (acc', s') →
  same_core s s'.
Proof.
  induction idxs as [|j idxs IH]; intros acc s acc' s' H; simpl in H.
  - injection H as <- <-. apply sc_refl.
  - apply bind_Ok in H as ([acc1 s1] & Hstep & H).
    apply (make_trial_sc fid) in Hstep. apply IH in H. by eapply sc_trans.
Qed.

Lemma make_trials_sc fid best alt s r s' :
  make_trials E fid best alt s = Ok (r, s') → same_core s s'.
Proof.
  unfold make_trials. intros H. minv.
  by eapply make_trial_loop_sc.
Qed.

Lemma ask_same_run fid s r s' :
  ask E fid s = Ok (r, s') → population s ≠ None → same_run s s'.
Proof.
  unfold ask. intros H Hp.
  destruct s as [p g cg repo isc ic iid pop ids fits ages tr rt h q cnt ini
                   trs tids cti]; simpl in *.
  destruct pop as [rows|]; [|done].
  destruct cnt as [cnt|], ini as [[|]|]; simpl in H.
  all: minv.
  all: repeat match goal with
           | H : make_trials _ _ _ _ _ = Ok _ |- _ => apply make_trials_sc in H
           | H : to_candidate _ _ _ = Ok _ |- _ => apply to_candidate_sc in H
           end.
  all: repeat match goal with
           | H : same_core _ (if ?c then _ else _) |- _ => destruct c
           | H : same_core (if ?c then _ else _) _ |- _ => destruct c
           end.
  all: repeat match goal with
           | H : same_core _ _ |- _ => destruct H
           end.
  all: constructor; simpl in *; congruence.
Qed.

End Steps3.

Section Steps4.
Context {E : Externals}.
Implicit Types s : DE E.

Lemma init_eval_step_scores fid i tr rt h s tr' rt' h' s' :
  init_eval_step E fid i ((tr, rt, h), s) = Ok ((tr', rt', h'), s') →
  objective_nonnan (params s) → init_ok i s →
  tr' = tr ++ [inc_score s'] ∧ fle (inc_score s') (inc_score s)
  ∧ init_ok (S i) s' ∧ params s' = params s.
Proof.
  unfold init_eval_step. intros H Hobj Hok.
  apply bind_Ok in H as (rows0 & Hrows0 & H). cbv beta in H.
  apply bind_Ok in H as (config & Hconfig & H). cbv beta in H.
  apply bind_Ok in H as (ids0 & Hids0 & H). cbv beta in H.
  apply bind_Ok in H as (cid & Hcid & H). cbv beta in H.
  apply bind_Ok in H as ([res s1] & Hf & H). cbv beta in H.
  apply bind_Ok in H as (fit & Hfit & H). cbv beta in H.
  apply bind_Ok in H as (cost & Hcost & H). cbv beta in H.
  apply bind_Ok in H as (fits1 & Hfits1 & H). cbv beta in H.
  apply bind_Ok in H as (fits2 & Hfits2 & H). cbv beta in H.
  apply bind_Ok in H as (repo & Hrepo & H). cbv beta in H.
  apply Ok_inj in H. injection H as <- <- <- <-.
  apply need_Ok in Hfit, Hcost, Hfits1.
  apply setitem_Ok in Hfits2 as [Hlt ->].
  destruct (f_objective_result _ _ _ _ _ Hf) as (obj & c & Hobj' & ->).
  pose proof (Hobj _ _ _ _ Hobj' Hfit) as Hnn. apply is_nan_false in Hnn.
  apply f_objective_sc in Hf.
  destruct Hok as (rows & fits & Hp & Hfs & Hall & Hinc & Hw).
  pose proof (sc_inc_score _ _ Hf) as Hinc1.
  pose proof (sc_params _ _ Hf) as Hpar1.
  pose proof (sc_fitness _ _ Hf) as Hfit1.
  pose proof (sc_population _ _ Hf) as Hpop1.
  rewrite Hfs in Hfit1. rewrite Hfit1 in Hfits1. injection Hfits1 as <-.
  rewrite Hp in Hpop1. simpl in Hpop1.
  destruct (population s1) as [rows1|] eqn:Hp1; [|done].
  assert (Hall2 : Forall nonnan (<[i:=fit]> fits)) by by apply Forall_insert.
  rewrite <- Hinc1 in Hinc, Hw.
  destruct Hw as (j & x & Hj & Hxi & Hcase).
  { intros ->. simpl in Hlt. lia. }
  destruct (fit <? inc_score s1)%float eqn:Hltf; simpl.
  - split_and!; try done.
    + rewrite <- Hinc1. by apply flt_fle.
    + exists rows1, (<[i:=fit]> fits). simpl. split_and!; try done.
      intros _. exists i, fit. rewrite list_lookup_insert_eq by done.
      split_and!; [done|by apply fle_refl|left; lia].
  - split_and!; try done.
    + rewrite Hinc1. apply fle_refl. by rewrite <- Hinc1.
    + exists rows1, (<[i:=fit]> fits). simpl. split_and!; try done.
      intros _. destruct Hcase as [Hji|Htop].
      * exists j, x. rewrite list_lookup_insert_ne by lia.
        split_and!; [done|done|left; lia].
      * exists i, fit. rewrite list_lookup_insert_eq by done.
        split_and!; [done| |left; lia].
        eapply fle_trans; [by apply fle_infinity|done].
Qed.

Lemma init_eval_loop_scores fid k : ∀ i tr rt h s tr' rt' h' s',
  for_each (init_eval_step E fid) (seq i k) ((tr, rt, h), s)
    = Ok ((tr', rt', h'), s') →
  objective_nonnan (params s) → init_ok i s →
  ∃ obs, tr' = tr ++ obs ∧ descends (inc_score s) obs (inc_score s')
         ∧ init_ok (i + k) s' ∧ params s' = params s.
Proof.
  induction k as [|k IH]; intros i tr rt h s tr' rt' h' s' H Hobj Hok.
  - simpl in H. injection H as <- <- <- <-. exists [].
    rewrite app_nil_r, Nat.add_0_r. split_and!; try done. constructor.
  - simpl in H. apply bind_Ok in H as ([[[tr1 rt1] h1] s1] & Hstep & H).
    apply init_eval_step_scores in Hstep as (-> & Hle & Hok1 & Hpar1);
      [|done..].
    apply IH in H as (obs & -> & Hd & Hok' & Hpar'); [|by rewrite Hpar1|done].
    exists (inc_score s1 :: obs). rewrite <- app_assoc. simpl.
    replace (i + S k)%nat with (S i + k)%nat by lia.
    split_and!; try done; [by constructor|congruence].
Qed.

Lemma init_ok_scores_ok i s : init_ok i s → scores_ok s.
Proof.
  intros (rows & fits & Hp & Hfs & Hall & Hinc & Hw).
  exists rows, fits. split_and!; try done.
  intros Hne. destruct (Hw Hne) as (j & x & Hj & Hx & _).
  exists x. split; [by eapply list_elem_of_lookup_2|done].
Qed.

Lemma init_eval_pop_scores fid eval s tr rt h s' :
  init_eval_pop E fid eval s = Ok ((tr, rt, h), s') →
  objective_nonnan (params s) → inc_score s = infinity →
  descends infinity tr (inc_score s') ∧ scores_ok s'
  ∧ params s' = params s.
Proof.
  unfold init_eval_pop. intros H Hobj Hinf.
  apply bind_Ok in H as (n & Hn & H). cbv beta in H.
  apply bind_Ok in H as ([rows s1] & Hpop & H). cbv beta in H.
  apply init_population_sc in Hpop.
  destruct (announce_population _ _ _) as [ids repo] eqn:Hann.
  assert (Hinc1 : inc_score s1 = infinity).
  { rewrite (sc_inc_score _ _ Hpop). unfold detach_views. simpl. done. }
  assert (Hpar1 : params s1 = params s).
  { rewrite (sc_params _ _ Hpop). unfold detach_views. done. }
  match type of H with
  | (if _ then _ else for_each _ _ (_, ?sA)) = _ =>
      assert (Hinit : init_ok 0 sA)
  end.
  { eexists rows, (replicate n infinity). simpl. split_and!; try done.
    - apply Forall_replicate. apply nonnan_infinity.
    - rewrite Hinc1. apply nonnan_infinity.
    - intros Hne. exists 0%nat, infinity. rewrite Hinc1.
      split_and!; [|apply fle_refl, nonnan_infinity
                   |right; apply fle_refl, nonnan_infinity].
      destruct n; [done|reflexivity]. }
  destruct eval; simpl in H.
  - apply init_eval_loop_scores in H as (obs & -> & Hd & Hok & Hpar);
      [|simpl; by rewrite Hpar1|done].
    simpl in *. rewrite Hinc1 in Hd. split_and!; try done.
    + by eapply init_ok_scores_ok.
    + congruence.
  - injection H as <- <- <- <-. simpl. rewrite Hinc1.
    split_and!; [constructor|by eapply init_ok_scores_ok|done].
Qed.

Lemma do_op_scores op s obs s' :
  do_op op s = Ok (obs, s') →
  objective_nonnan (params s) → tell_nonnan op → scores_ok s →
  descends (inc_score s) obs (inc_score s') ∧ scores_ok s'
  ∧ params s' = params s.
Proof.
  destruct op as [trials tids fid|fid best alt|fid|trial tid idx result fid];
    simpl; intros H Hobj Hnn Hok.
  - apply bind_Ok in H as ([[[tr rt] h] s1] & Hsel & H).
    injection H as <- <-. unfold selection in Hsel.
    apply selection_loop_scores in Hsel as (obs & -> & Hd & Hok' & Hpar);
      done.
  - apply bind_Ok in H as ([[[tr rt] h] s1] & Hev & H).
    injection H as <- <-. unfold evolve_generation in Hev.
    apply bind_Ok in Hev as ([[ts ids] s2] & Hmk & Hsel).
    apply make_trials_sc in Hmk. unfold selection in Hsel.
    apply selection_loop_scores in Hsel as (obs & -> & Hd & Hok' & Hpar).
    + rewrite (sc_inc_score _ _ Hmk) in Hd.
      rewrite (sc_params _ _ Hmk) in Hpar. done.
    + by rewrite (sc_params _ _ Hmk).
    + by eapply scores_ok_same_core.
  - apply bind_Ok in H as ([r s1] & Hask & H). injection H as <- <-.
    apply ask_same_run in Hask.
    + rewrite (sr_inc_score _ _ Hask).
      split_and!; [constructor|by eapply scores_ok_same_run|apply Hask].
    + destruct Hok as (rows & ? & -> & _). done.
  - apply bind_Ok in H as (s1 & Htell & H). injection H as <- <-.
    destruct (r_fitness result) as [fit|] eqn:Hfit.
    + eapply tell_scores in Htell as (Hle & Hok' & Hpar & _);
        [|exact Hfit|by apply is_nan_false, Hnn|done].
      split_and!; try done. by apply descends_one.
    + exfalso. unfold tell in Htell. rewrite Hfit in Htell.
      clear -Htell. minv.
Qed.

Lemma do_ops_scores ops : ∀ s obs s',
  do_ops ops s = Ok (obs, s') →
  objective_nonnan (params s) → Forall tell_nonnan ops → scores_ok s →
  descends (inc_score s) obs (inc_score s') ∧ scores_ok s'.
Proof.
  induction ops as [|op ops IH]; intros s obs s' H Hobj Hnn Hok; simpl in H.
  - injection H as <- <-. split; [constructor|done].
  - apply Forall_cons in Hnn as [Hnn1 Hnn].
    apply bind_Ok in H as ([o1 s1] & Hop & H). cbv beta in H.
    apply bind_Ok in H as ([o2 s2] & Hops & H). cbv beta in H.
    injection H as <- <-.
    apply do_op_scores in Hop as (Hd1 & Hok1 & Hpar1); [|done..].
    apply IH in Hops as (Hd2 & Hok2); [|by rewrite Hpar1|done..].
    split; [by eapply descends_app|done].
Qed.

(** C5.  Within a single run - [reset], the initial population, then
    any sequence of selections, generations, asks and tells - the
    incumbent scores recorded after each evaluation (the [traj] entries
    of [init_eval_pop] and of every selection step, the [inc_score] left
    by every [tell]), listed in order after the initial [inf], never
    increase.  The objective and the told results follow the objective
    contract: no fitness is a nan. *)
Theorem inc_score_never_increases_within_a_run
    fidelity eval ops s scores s' :
  objective_nonnan (params s) →
  Forall tell_nonnan ops →
  single_run fidelity eval ops s = Ok (scores, s') →
  non_increasing (infinity :: scores).
Proof.
  unfold single_run. intros Hobj Hnn H.
  apply bind_Ok in H as ([[[tr rt] h] s1] & Hinit & H). cbv beta in H.
  apply bind_Ok in H as ([o s2] & Hops & H). cbv beta in H.
  injection H as <- <-.
  apply init_eval_pop_scores in Hinit as (Hd1 & Hok1 & Hpar1); [|done..].
  apply do_ops_scores in Hops as (Hd2 & _); [|by rewrite Hpar1|done..].
  eapply descends_non_increasing, descends_app; eauto.
Qed.
End Steps4.

Lemma f_coord_gives_no_nan : objective_nonnan (params Scenario.de3).
Proof.
  intros obj c fid fit Hf Hr.
  change (Some Scenario.f_coord = Some obj) in Hf. injection Hf as <-.
  destruct c as [[|x l]|cfg]; simpl in Hr; injection Hr as <-;
    try reflexivity.
  destruct (is_nan x) eqn:Hx; [reflexivity|exact Hx].
Qed.

(** C5 at an instance: the initial population [[0.25], [0.5], [0.75]],
    one generation, an [ask], and a [tell] of fitness 0.125 at index 0. *)
Lemma inc_score_trace_of_a_small_run :
  fst <$> single_run (E:=Scenario.E3) None true
            [OpEvolve None None None; OpAsk None;
             OpTell (CVector [0.125%float]) 0 0 (Scenario.result_of 0.125)
               None]
            Scenario.de3
  = Ok [0.25; 0.25; 0.25; 0.25; 0.125; 0.125; 0.125]%float
  ∧ non_increasing
      (infinity :: [0.25; 0.25; 0.25; 0.25; 0.125; 0.125; 0.125]%float).
Proof.
  split; [vm_compute; reflexivity|].
  eapply (inc_score_never_increases_within_a_run (E:=Scenario.E3) None true
            [OpEvolve None None None; OpAsk None;
             OpTell (CVector [0.125%float]) 0 0 (Scenario.result_of 0.125)
               None]
            Scenario.de3).
  - exact f_coord_gives_no_nan.
  - repeat (apply Forall_cons; split; [simpl; try exact I|]).
    + intros fit Hfit. injection Hfit as <-. reflexivity.
    + apply Forall_nil_2.
  - vm_compute. reflexivity.
Defined.

(** ** [tell]: one selection, one entry in each log *)

Lemma py_index_in_range len i :
  (0 <= i < Z.of_nat len)%Z → py_index len i = Ok (Z.to_nat i).
Proof.
  intros [H1 H2]. unfold py_index.
  destruct (Z.leb_spec 0 i); [|lia]. destruct (Z.ltb_spec i (Z.of_nat len)); [done|lia].
Qed.

Lemma argmin_from_bound l : ∀ mp mi i,
  (mi < i)%nat → (argmin_from mp mi i l < i + length l)%nat.
Proof.
  induction l as [|x l IH]; intros mp mi i Hlt; simpl; [lia|].
  destruct (negb _); [destruct (is_nan x)|].
  - lia.
  - specialize (IH x i (S i)). lia.
  - specialize (IH mp mi (S i)). lia.
Qed.

Lemma np_argmin_total l :
  l ≠ [] → ∃ b, np_argmin l = Ok b ∧ (b < length l)%nat.
Proof.
  destruct l as [|x l]; [done|]. intros _. simpl. eexists; split; [done|].
  destruct (is_nan x); [lia|].
  pose proof (argmin_from_bound l x 0%nat 1%nat). lia.
Qed.


Lemma bind_ok {A B} (a : A) (k : A → res B) : Ok a ≫= k = k a.
Proof. reflexivity. Qed.

Lemma getitem_some {A} (l : list A) i x :
  l !! i = Some x → getitem l i = Ok x.
Proof. unfold getitem. by intros ->. Qed.

Lemma setitem_lt {A} (l : list A) i x :
  (i < length l)%nat → setitem l i x = Ok (<[i := x]> l).
Proof.
  intros H. unfold setitem. by rewrite (proj2 (Nat.ltb_lt _ _) H).
Qed.

Lemma getitemZ_in {A} (l : list A) i x :
  (0 <= i < Z.of_nat (length l))%Z → l !! Z.to_nat i = Some x →
  getitemZ l i = Ok x.
Proof.
  intros Hi Hx. unfold getitemZ. rewrite py_index_in_range by done.
  simpl. by apply getitem_some.
Qed.

Lemma setitemZ_in {A} (l : list A) i x :
  (0 <= i < Z.of_nat (length l))%Z →
  setitemZ l i x = Ok (<[Z.to_nat i := x]> l).
Proof.
  intros Hi. unfold setitemZ. rewrite py_index_in_range by done.
  simpl. apply setitem_lt. lia.
Qed.

Lemma row_assignZ_in rows i a old :
  (0 <= i < Z.of_nat (length rows))%Z → rows !! Z.to_nat i = Some old →
  length a = length old →
  row_assignZ rows i a = Ok (<[Z.to_nat i := a]> rows).
Proof.
  intros Hi Hold Hlen. unfold row_assignZ.
  rewrite py_index_in_range by done. simpl. unfold row_assign.
  by rewrite Hold, (proj2 (Nat.eqb_eq _ _) Hlen).
Qed.

Lemma tell_result_known repo id fid fit cost info :
  (0 <= id < Z.of_nat (length repo))%Z →
  ∃ repo', tell_result repo id fid fit cost info = Ok repo'.
Proof.
  intros [H1 H2]. unfold tell_result.
  destruct (Z.leb_spec 0 id); [|lia].
  destruct (Z.ltb_spec id (Z.of_nat (length repo))); [|lia].
  simpl. eauto.
Qed.

Ltac mok := rewrite bind_ok; cbv beta iota.

Section Tell.
Context {E : Externals}.
Implicit Types s : DE E.

Lemma map_to_original_rng v s r s' :
  map_to_original E v s = Ok (r, s') → ∃ g, s' = set_rng E g s.
Proof. unfold map_to_original. intros H. minv. eauto. Qed.

Lemma tell_vector_rng trial s v s' :
  tell_vector E trial s = Ok (v, s') → s' = s ∨ ∃ g, s' = set_rng E g s.
Proof.
  unfold tell_vector. intros H.
  apply bind_Ok in H as (x & _ & H). cbv beta in H.
  destruct (encoding _).
  - right. by eapply map_to_original_rng.
  - left. by injection H.
Qed.

Lemma one_vs_one_in_range i trial tid fit s rows ids fits ages n
    parent a old :
  population s = Some rows → population_ids s = Some ids →
  fitness s = Some fits → age s = Some ages →
  length rows = n → length ids = n → length fits = n → length ages = n →
  (0 <= i < Z.of_nat n)%Z →
  fits !! Z.to_nat i = Some parent → ages !! Z.to_nat i = Some a →
  rows !! Z.to_nat i = Some old → length trial = length old →
  one_vs_one E i trial tid fit s
  = Ok (if (fit <=? parent)%float
        then set_age E (Some (<[Z.to_nat i := max_age (params s)]> ages))
               (set_fitness E (Some (<[Z.to_nat i := fit]> fits))
                  (set_population_ids E (Some (<[Z.to_nat i := tid]> ids))
                     (set_population E (Some (<[Z.to_nat i := trial]> rows))
                        s)))
        else set_age E (Some (<[Z.to_nat i := (a - 1)%float]> ages)) s).
Proof.
  intros Hp Hids Hfs Hages Hlr Hli Hlf Hla Hi Hpar Ha Hold Hlen.
  unfold one_vs_one. rewrite Hfs. cbn [need]. mok.
  rewrite (getitemZ_in fits i parent) by (done || lia). mok.
  destruct (fit <=? parent)%float.
  - rewrite Hp. cbn [need]. mok.
    rewrite (row_assignZ_in rows i trial old) by (done || lia). mok.
    rewrite Hids. cbn [need]. mok.
    rewrite (setitemZ_in ids) by lia. mok.
    rewrite (setitemZ_in fits) by lia. mok.
    rewrite Hages. cbn [need]. mok.
    rewrite (setitemZ_in ages) by lia. by mok.
  - rewrite Hages. cbn [need]. mok.
    rewrite (getitemZ_in ages i a) by (done || lia). mok.
    rewrite (setitemZ_in ages) by lia. by mok.
Qed.

(** C10.  On an instance whose population arrays have the common length
    [n], for a target index in [0, n), a result holding a fitness and a
    cost, a trial of the population's dimension and an id the repository
    knows, [tell] returns; it has applied the one-vs-one update at the
    target index (the trial, its id and fitness stored and the age
    reset when the fitness is at most the parent's, the age decremented
    otherwise), set the incumbent to the first minimum of the fitness
    array, and appended exactly one entry to each of [traj], [runtime]
    and [history].  Nothing is assumed about [_ask_queue], which it
    leaves as it was, nor about where the triple comes from. *)
Theorem tell_selects_and_logs_once
    trial trial_id target_idx result fidelity s v s1 fit cost
    rows ids fits ages (n : nat) :
  tell_vector E trial s = Ok (v, s1) →
  r_fitness result = Some fit →
  r_cost result = Some cost →
  (0 <= trial_id < Z.of_nat (length (config_repository s)))%Z →
  population s = Some rows → population_ids s = Some ids →
  fitness s = Some fits → age s = Some ages →
  length rows = n → length ids = n → length fits = n → length ages = n →
  Forall (λ row, length row = length v) rows →
  (0 <= target_idx < Z.of_nat n)%Z →
  ∃ s' parent a b,
    let k := Z.to_nat target_idx in
    let win := (fit <=? parent)%float in
    let fits' := if win then <[k := fit]> fits else fits in
    let ids' := if win then <[k := trial_id]> ids else ids in
    tell E trial trial_id target_idx result fidelity s = Ok s'
    ∧ fits !! k = Some parent ∧ ages !! k = Some a
    ∧ population s' = Some (if win then <[k := v]> rows else rows)
    ∧ population_ids s' = Some ids'
    ∧ fitness s' = Some fits'
    ∧ age s' = Some (<[k := if win then max_age (params s)
                            else (a - 1)%float]> ages)
    ∧ np_argmin fits' = Ok b
    ∧ Some (inc_score s') = fits' !! b
    ∧ inc_config s' = Some (Row b)
    ∧ Some (inc_id s') = PyInt <$> ids' !! b
    ∧ traj s' = traj s ++ [inc_score s']
    ∧ runtime s' = runtime s ++ [cost]
    ∧ history s'
      = history s ++ [(v, fit, fidelity_or_0 fidelity, info_of result)]
    ∧ _ask_queue s' = _ask_queue s.
Proof.
  intros Hv Hfit Hcost Hid Hp Hids Hfs Hages Hlr Hli Hlf Hla Hdim Hidx.
  set (k := Z.to_nat target_idx).
  assert (Hk : (k < n)%nat) by lia.
  destruct (lookup_lt_is_Some_2 fits k) as [parent Hpar]; [lia|].
  destruct (lookup_lt_is_Some_2 ages k) as [a Ha]; [lia|].
  destruct (lookup_lt_is_Some_2 rows k) as [old Hold]; [lia|].
  assert (Hlen_old : length v = length old).
  { symmetry. eapply (Forall_lookup_1 _ _ _ _ Hdim Hold). }
  assert (Hs1 : config_repository s1 = config_repository s
                ∧ population s1 = Some rows ∧ population_ids s1 = Some ids
                ∧ fitness s1 = Some fits ∧ age s1 = Some ages
                ∧ traj s1 = traj s ∧ runtime s1 = runtime s
                ∧ history s1 = history s ∧ _ask_queue s1 = _ask_queue s
                ∧ params s1 = params s).
  { destruct (tell_vector_rng _ _ _ _ Hv) as [->|[g ->]]; simpl; done. }
  destruct Hs1 as (Hrepo1 & Hp1 & Hids1 & Hfs1 & Hages1 & Htr1 & Hrt1 & Hh1
                   & Hq1 & Hpar1).
  destruct (tell_result_known (config_repository s1) trial_id
              (fidelity_or_0 fidelity) fit cost (info_of result))
    as [repo' Hrepo']; [by rewrite Hrepo1|].
  exists
    (let s2 := if (fit <=? parent)%float
        then set_age E (Some (<[k := max_age (params s)]> ages))
               (set_fitness E (Some (<[k := fit]> fits))
                  (set_population_ids E (Some (<[k := trial_id]> ids))
                     (set_population E (Some (<[k := v]> rows))
                        (set_config_repository E repo' s1))))
        else set_age E (Some (<[k := (a - 1)%float]> ages))
               (set_config_repository E repo' s1) in
     let fits' := if (fit <=? parent)%float then <[k := fit]> fits
                  else fits in
     let ids' := if (fit <=? parent)%float then <[k := trial_id]> ids
                 else ids in
     let b := match np_argmin fits' with Ok b => b | Raise _ => 0%nat end in
     let s3 := set_inc_id E (PyInt (default 0%Z (ids' !! b)))
                 (set_inc_config E (Some (Row b))
                    (set_inc_score E (default 0%float (fits' !! b)) s2)) in
     set_history E
       (history s3 ++ [(v, fit, fidelity_or_0 fidelity, info_of result)])
       (set_runtime E (runtime s3 ++ [cost])
          (set_traj E (traj s3 ++ [inc_score s3]) s3))),
    parent, a.
  cbv zeta.
  assert (Hne : (if (fit <=? parent)%float then <[k:=fit]> fits else fits)
                ≠ []).
  { destruct (fit <=? parent)%float; intros Hnil;
      apply (f_equal length) in Hnil; rewrite ?length_insert in Hnil;
      simpl in Hnil; lia. }
  destruct (np_argmin_total _ Hne) as (b & Hb & Hblt).
  exists b. rewrite Hb.
  unfold tell. rewrite Hv. mok.
  rewrite Hfit. mok. rewrite Hcost. mok. rewrite Hrepo'. mok.
  rewrite (one_vs_one_in_range target_idx v trial_id fit _ rows ids fits
             ages n parent a old) by (simpl; done || lia).
  mok. fold k. cbn [params set_config_repository].
  rewrite Hpar1.
  destruct (fit <=? parent)%float.
  - rewrite length_insert in Hblt.
    destruct (lookup_lt_is_Some_2 (<[k:=fit]> fits) b) as [bf Hbf];
      [rewrite length_insert; lia|].
    destruct (lookup_lt_is_Some_2 (<[k:=v]> rows) b) as [br Hbr];
      [rewrite length_insert; lia|].
    destruct (lookup_lt_is_Some_2 (<[k:=trial_id]> ids) b) as [bi Hbi];
      [rewrite length_insert; lia|].
    cbn [fitness population population_ids set_age set_fitness
           set_population_ids set_population set_config_repository need].
    mok. rewrite Hb. mok. erewrite getitem_some by exact Hbf. mok. mok.
    erewrite getitem_some by exact Hbr. mok. mok.
    erewrite getitem_some by exact Hbi. mok.
    rewrite Hbf, Hbi. simpl. rewrite Htr1, Hrt1, Hh1, Hq1.
    split_and!; done.
  - destruct (lookup_lt_is_Some_2 fits b) as [bf Hbf]; [lia|].
    destruct (lookup_lt_is_Some_2 rows b) as [br Hbr]; [lia|].
    destruct (lookup_lt_is_Some_2 ids b) as [bi Hbi]; [lia|].
    cbn [fitness population population_ids set_age set_fitness
           set_population_ids set_population set_config_repository need].
    rewrite Hfs1. cbn [need]. mok. rewrite Hb. mok.
    erewrite getitem_some by exact Hbf. mok.
    rewrite Hp1. cbn [need]. mok.
    erewrite getitem_some by exact Hbr. mok.
    rewrite Hids1. cbn [need]. mok.
    erewrite getitem_some by exact Hbi. mok.
    rewrite Hbf, Hbi. simpl. rewrite Hp1, Hids1, Hfs1, Htr1, Hrt1, Hh1, Hq1.
    split_and!; done.
Qed.
End Tell.

(** C10 at an instance: the evaluated population [[0.25], [0.5], [0.75]]
    is told the trial [[0.125]] under id 0 at index 1, with no [ask]
    before it. *)
Lemma tell_on_the_evaluated_population :
  ∃ (s' : DE Scenario.E3) parent a b,
    let k := 1%nat in
    let win := (0.125 <=? parent)%float in
    let fits' :=
      if win then <[k := 0.125%float]> [0.25; 0.5; 0.75]%float
      else [0.25; 0.5; 0.75]%float in
    let ids' := if win then <[k := 0%Z]> [0; 1; 2]%Z else [0; 1; 2]%Z in
    tell Scenario.E3 (CVector [0.125%float]) 0 1 (Scenario.result_of 0.125)
      None Scenario.de3_evaluated = Ok s'
    ∧ [0.25; 0.5; 0.75]%float !! k = Some parent
    ∧ [10; 10; 10]%float !! k = Some a
    ∧ population s'
      = Some (if win then <[k := [0.125%float]]> [[0.25]; [0.5]; [0.75]]%float
              else [[0.25]; [0.5]; [0.75]]%float)
    ∧ population_ids s' = Some ids'
    ∧ fitness s' = Some fits'
    ∧ age s' = Some (<[k := if win then 10%float else (a - 1)%float]>
                       [10; 10; 10]%float)
    ∧ np_argmin fits' = Ok b
    ∧ Some (inc_score s') = fits' !! b
    ∧ inc_config s' = Some (Row b)
    ∧ Some (inc_id s') = PyInt <$> ids' !! b
    ∧ traj s' = [] ++ [inc_score s']
    ∧ runtime s' = [] ++ [0%float]
    ∧ history s' = [] ++ [([0.125%float], 0.125%float, 0%float, [])]
    ∧ _ask_queue s' = [].
Proof.
  apply (tell_selects_and_logs_once (E:=Scenario.E3)
           (CVector [0.125%float]) 0 1 (Scenario.result_of 0.125) None
           Scenario.de3_evaluated [0.125%float] Scenario.de3_evaluated
           0.125%float 0%float
           [[0.25]; [0.5]; [0.75]]%float [0; 1; 2]%Z [0.25; 0.5; 0.75]%float
           [10; 10; 10]%float 3%nat); try reflexivity.
  - change (0 <= 0 < 3)%Z. lia.
  - repeat constructor.
  - lia.
Defined.

(** ** The incumbent after a selection step, and the randtobest1
    donor *)

Section SelectionAndDonor.
Context {E : Externals}.
Implicit Types s : DE E.

Lemma one_vs_one_inc_score i trial tid fit s s' :
  one_vs_one E i trial tid fit s = Ok s' → inc_score s' = inc_score s.
Proof. unfold one_vs_one. intros H. minv; done. Qed.

(** C2 (the code departs from the claim).  When the fitness that a
    selection step leaves at index [i] is below the incumbent score, the
    step sets [inc_score] to that fitness and [inc_config] to row [i] of
    the population, but [inc_id] to the same row ([self.inc_id =
    self.population[i]]), not to the integer [population_ids[i]]. *)
Theorem selection_stores_a_vector_as_inc_id
    trials tids fid i tr rt h s tr' rt' h' s' fits fi :
  selection_step E trials tids fid i ((tr, rt, h), s)
    = Ok ((tr', rt', h'), s') →
  fitness s' = Some fits → fits !! i = Some fi →
  (fi <? inc_score s)%float = true →
  inc_score s' = fi ∧ inc_config s' = Some (Row i)
  ∧ inc_id s' = PyArr (Row i).
Proof.
  unfold selection_step. intros H Hfits Hfi Hlt.
  apply bind_Ok in H as (trial & Htrial & H). cbv beta in H.
  apply bind_Ok in H as ([res s1] & Hf & H). cbv beta in H.
  apply bind_Ok in H as (fit & Hfit & H). cbv beta in H.
  apply bind_Ok in H as (cost & Hcost & H). cbv beta in H.
  apply bind_Ok in H as (tid & Htid & H). cbv beta in H.
  apply bind_Ok in H as (repo & Hrepo & H). cbv beta in H.
  apply bind_Ok in H as (s2 & Hsel & H). cbv beta in H.
  apply bind_Ok in H as (fits2 & Hfits2 & H). cbv beta in H.
  apply bind_Ok in H as (fi2 & Hfi2 & H). cbv beta in H.
  apply Ok_inj in H. injection H as _ _ _ <-.
  apply need_Ok in Hfits2. apply getitem_Ok in Hfi2.
  apply one_vs_one_inc_score in Hsel. simpl in Hsel.
  apply f_objective_sc in Hf. rewrite (sc_inc_score _ _ Hf) in Hsel.
  assert (fitness s2 = Some fits) as Hfs.
  { destruct (fi2 <? inc_score s2)%float; simpl in Hfits; done. }
  rewrite Hfs in Hfits2. injection Hfits2 as <-.
  rewrite Hfi in Hfi2. injection Hfi2 as <-.
  rewrite Hsel, Hlt. simpl. done.
Qed.

Lemma mutation_via_randtobest1 sample current best s rs s1 r1 r2 r3 b F :
  mutation_strategy (params s) = Some "randtobest1"%string →
  sample 3%nat s = Ok (rs, s1) → rs = [r1; r2; r3] →
  best_or_argmin E best s1 = Ok b →
  mutation_factor (params s1) = Some F →
  mutation_via E sample current best s
  = Ok (code_randtobest1 F b r1 r2 r3, s1).
Proof.
  intros Hms Hs -> Hb HF. unfold mutation_via. rewrite Hms. cbn [str_is].
  replace (String.eqb "randtobest1" "rand1") with false by reflexivity.
  replace (String.eqb "randtobest1" "rand2") with false by reflexivity.
  replace (String.eqb "randtobest1" "rand2dir") with false by reflexivity.
  replace (String.eqb "randtobest1" "best1") with false by reflexivity.
  replace (String.eqb "randtobest1" "best2") with false by reflexivity.
  replace (String.eqb "randtobest1" "currenttobest1") with false
    by reflexivity.
  replace (String.eqb "randtobest1" "randtobest1") with true by reflexivity.
  rewrite Hs. mok. cbn [unpack3]. mok. rewrite Hb. mok.
  unfold mutation_currenttobest1. rewrite HF. cbn [need]. mok. by mok.
Qed.

(** C7 (amended).  For the strategy randtobest1, [DE.mutation] and
    [AsyncDE.mutation] draw three parents [r1, r2, r3] and return the
    donor [r1 + F * (best - r1) + F * (r2 - r3)], where [F] is the
    mutation factor and [best] the supplied best or, without one, the
    row of the population of least fitness. *)
Theorem randtobest1_donor_uses_three_parents
    current best alt_pop s s1 r1 r2 r3 b F :
  mutation_strategy (params s) = Some "randtobest1"%string →
  mutation_factor (params s) = Some F →
  best_or_argmin E best s1 = Ok b →
  (sample_population E 3 alt_pop s = Ok ([r1; r2; r3], s1) →
   DE_mutation E current best alt_pop s
   = Ok (code_randtobest1 F b r1 r2 r3, s1))
  ∧ (∀ target,
       match current with
       | Some c => Some <$> deref E c s
       | None => Ok None
       end = Ok target →
       _sample_population E 3 alt_pop target s = Ok ([r1; r2; r3], s1) →
       AsyncDE_mutation E current best alt_pop s
       = Ok (code_randtobest1 F b r1 r2 r3, s1)).
Proof.
  intros Hms HF Hb. split.
  - intros Hs. unfold DE_mutation.
    eapply mutation_via_randtobest1; eauto.
    by rewrite (sc_params _ _ (sample_population_sc _ _ _ _ _ Hs)).
  - intros target Ht Hs. unfold AsyncDE_mutation. rewrite Ht. mok.
    eapply mutation_via_randtobest1; eauto.
    by rewrite (sc_params _ _ (_sample_population_sc _ _ _ _ _ _ Hs)).
Qed.
End SelectionAndDonor.

(** C2 at an instance: on the evaluated population [[0.25], [0.5],
    [0.75]] with ids 0, 1, 2 and incumbent score 0.25, the selection
    step of index 0 with the trial [[0.125]] leaves a row of the
    population in [inc_id]. *)
Lemma selection_step_of_a_better_trial :
  (inc_score Scenario.de3_selected = 0.125%float
   ∧ inc_config Scenario.de3_selected = Some (Row 0)
   ∧ inc_id Scenario.de3_selected = PyArr (Row 0))
  ∧ population_ids Scenario.de3_selected = Some [0; 1; 2]%Z.
Proof.
  split; [|reflexivity].
  eapply (selection_stores_a_vector_as_inc_id (E:=Scenario.E3)
            [[0.125%float]] [0%Z] None 0 [] [] [] Scenario.de3_evaluated
            _ _ _ Scenario.de3_selected [0.125; 0.5; 0.75]%float
            0.125%float).
  all: vm_compute; reflexivity.
Defined.

(** C7, the claim as worded fails: with the population [[0.25], [0.5],
    [0.75]], [F = 0.5], best [[0.25]] and the parents drawn as [[0.5]],
    [[0.25]], [[0.75]], the donor is [[0.125]]; the worded formula gives
    another vector whichever row of the population stands for [r4]. *)
Lemma randtobest1_is_not_the_four_parent_formula :
  population Scenario.de7 = Some [[0.25]; [0.5]; [0.75]]%float
  ∧ fst <$> sample_population Scenario.E7 3 None Scenario.de7
    = Ok [[0.5]; [0.25]; [0.75]]%float
  ∧ best_or_argmin Scenario.E7 None Scenario.de7_drawn = Ok [0.25%float]
  ∧ fst <$> DE_mutation Scenario.E7 (Some (Row 0)) None None Scenario.de7
    = Ok [0.125%float]
  ∧ forallb (λ r4, negb (all_eq (spec_randtobest1 0.5 [0.25] [0.5] [0.25]
                                   [0.75] r4) [0.125]))%float
      [[0.25]; [0.5]; [0.75]]%float = true.
Proof. split_and!; vm_compute; reflexivity. Qed.

(** C7 (amended) at the same instance. *)
Lemma randtobest1_donor_on_three_rows :
  DE_mutation Scenario.E7 (Some (Row 0)) None None Scenario.de7
  = Ok (code_randtobest1 0.5 [0.25] [0.5] [0.25] [0.75],
        Scenario.de7_drawn)%float
  ∧ (code_randtobest1 0.5 [0.25] [0.5] [0.25] [0.75] = [0.125])%float.
Proof.
  split; [|vm_compute; reflexivity].
  apply (proj1 (randtobest1_donor_uses_three_parents (E:=Scenario.E7)
                  (Some (Row 0)) None None Scenario.de7 Scenario.de7_drawn
                  [0.5] [0.25] [0.75] [0.25] 0.5
                  ltac:(reflexivity) ltac:(reflexivity)
                  ltac:(vm_compute; reflexivity)))%float.
  vm_compute. reflexivity.
Defined.

(** ** The sampling pool of [AsyncDE] *)

Lemma for_list_length {A B} (g : A → res B) l : ∀ l',
  for_list g l = Ok l' → length l' = length l.
Proof.
  induction l as [|x l IH]; intros l' H; simpl in H.
  - by injection H as <-.
  - apply bind_Ok in H as (y & _ & H). cbv beta in H.
    apply bind_Ok in H as (ys & Hys & H). injection H as <-.
    simpl. f_equal. by apply IH.
Qed.

Lemma remove_first_equal_length t rows :
  length (remove_first_equal t rows)
  = if existsb (all_eq t) rows then (length rows - 1)%nat else length rows.
Proof.
  induction rows as [|row rows IH]; simpl; [done|].
  destruct (all_eq t row); simpl; [lia|].
  rewrite IH. destruct (existsb _ rows) eqn:Hex; [|done].
  destruct rows; [done|simpl; lia].
Qed.

Section SamplingPool.
Context {E : Externals}.
Implicit Types s : DE E.

Lemma rng_random_n_length k : ∀ g us g',
  rng_random_n E g k = (us, g') → length us = k.
Proof.
  induction k as [|k IH]; intros g us g' H; simpl in H.
  - by injection H as <- <-.
  - destruct (rng_random E g) as [u g1].
    destruct (rng_random_n E g1 k) as [us1 g2] eqn:Hr.
    injection H as <- <-. simpl. f_equal. by eapply IH.
Qed.

Lemma rng_uniform_matrix_length d n : ∀ g rows g',
  rng_uniform_matrix E g n d = (rows, g') → length rows = n.
Proof.
  induction n as [|n IH]; intros g rows g' H; simpl in H.
  - by injection H as <- <-.
  - destruct (rng_random_n E g d) as [row g1].
    destruct (rng_uniform_matrix E g1 n d) as [rows1 g2] eqn:Hr.
    injection H as <- <-. simpl. f_equal. by eapply IH.
Qed.

Lemma cs_sample_n_length c n : ∀ g l g',
  cs_sample_n E c g n = (l, g') → length l = n.
Proof.
  induction n as [|n IH]; intros g l g' H; simpl in H.
  - by injection H as <- <-.
  - destruct (cs_sample E c g) as [x g1].
    destruct (cs_sample_n E c g1 n) as [l1 g2] eqn:Hr.
    injection H as <- <-. simpl. f_equal. by eapply IH.
Qed.

Lemma init_population_length n s rows s' :
  init_population E n s = Ok (rows, s') → length rows = n.
Proof.
  unfold init_population. intros H. minv.
  - apply for_list_length in Hq0. rewrite Hq0.
    by eapply cs_sample_n_length.
  - by eapply rng_uniform_matrix_length.
Qed.

(** C8 (amended).  AsyncDE's sampling pool is the given population
    (the instance's own when none is given or an entry is missing), from
    which the first row equal to the target is removed only when the
    pool has more than one member; a pool left with fewer than
    [_min_pop_size] rows is padded with fresh random individuals to
    exactly [_min_pop_size], a larger one is used as it is.  In
    particular a pool of two rows that holds the target, with
    [_min_pop_size = 4], is padded to four. *)
Theorem sampling_pool_is_pruned_then_padded alt_pop target s pool s' :
  _sampling_pool E alt_pop target s = Ok (pool, s') →
  ∃ base,
    let pruned :=
      match target with
      | Some t =>
          if (1 <? length base)%nat then remove_first_equal t base else base
      | None => base
      end in
    let m := _min_pop_size (params s) in
    match alt_pop with
    | Some alt =>
        if existsb is_none alt then population s = Some base
        else base = omap id alt
    | None => population s = Some base
    end
    ∧ ((length pruned < m)%nat →
       ∃ fresh, init_population E (m - length pruned) s = Ok (fresh, s')
                ∧ pool = pruned ++ fresh ∧ length pool = m)
    ∧ ((m <= length pruned)%nat → pool = pruned ∧ s' = s)
    ∧ (m = 4%nat → (∃ a b, base = [a; b]) →
       (∃ t, target = Some t ∧ existsb (all_eq t) base = true) →
       length pool = 4%nat).
Proof.
  unfold _sampling_pool. intros H.
  apply bind_Ok in H as (base & Hbase & H). cbv beta zeta in H.
  exists base. cbv zeta.
  set (pruned := match target with
                 | Some t => if (1 <? length base)%nat
                             then remove_first_equal t base else base
                 | None => base
                 end) in *.
  assert (Hcase :
    ((length pruned < _min_pop_size (params s))%nat →
       ∃ fresh, init_population E (_min_pop_size (params s) - length pruned) s
                = Ok (fresh, s')
                ∧ pool = pruned ++ fresh
                ∧ length pool = _min_pop_size (params s))
    ∧ ((_min_pop_size (params s) <= length pruned)%nat
       → pool = pruned ∧ s' = s)).
  { destruct (length pruned <? _min_pop_size (params s))%nat eqn:Hlt.
    - apply Nat.ltb_lt in Hlt.
      apply bind_Ok in H as ([fresh s1] & Hinit & H). injection H as <- <-.
      split; [|lia]. intros _. exists fresh. split_and!; try done.
      rewrite length_app, (init_population_length _ _ _ _ Hinit). lia.
    - apply Nat.ltb_ge in Hlt. injection H as <- <-. split; [lia|done]. }
  split_and!; try apply Hcase.
  - destruct alt_pop as [alt|]; [destruct (existsb is_none alt)|].
    + by apply need_Ok.
    + by injection Hbase.
    + by apply need_Ok.
  - intros Hm (a & b & ->) (t & -> & Hex).
    assert (length pruned = 1%nat) as Hlen.
    { subst pruned.
      replace (1 <? length [a; b])%nat with true by reflexivity.
      rewrite remove_first_equal_length, Hex. done. }
    destruct Hcase as [Hpad _].
    destruct Hpad as (fresh & _ & _ & Hl); [lia|]. lia.
Qed.
End SamplingPool.

(** C8, the claim as worded fails: the pool of an AsyncDE of population
    size 1 is its only row [[0.25]]; with that row as target nothing is
    removed, the pool is padded to [[0.25], [0.5], [0.75]] and the target
    is among the three parents drawn. *)
Lemma lone_target_stays_in_the_pool :
  population Scenario.async1 = Some [[0.25%float]]
  ∧ fst <$> _sampling_pool Scenario.E3 None (Some [0.25%float])
              Scenario.async1
    = Ok [[0.25]; [0.5]; [0.75]]%float
  ∧ fst <$> _sample_population Scenario.E3 3 None (Some [0.25%float])
              Scenario.async1
    = Ok [[0.75]; [0.5]; [0.25]]%float.
Proof. split_and!; vm_compute; reflexivity. Qed.

(** C8 (amended) at an instance: strategy best2 and population size 2;
    the target [[0.25]] is removed from [[0.25], [0.5]] and three fresh
    rows pad the pool to four. *)
Lemma best2_pool_of_two_is_padded_to_four :
  ∃ base,
    let pruned :=
      if (1 <? length base)%nat then remove_first_equal [0.25%float] base
      else base in
    let m := _min_pop_size (params Scenario.async2) in
    let pool := [[0.5]; [0.75]; [0.125]; [0.875]]%float in
    population Scenario.async2 = Some base
    ∧ ((length pruned < m)%nat →
       ∃ fresh, init_population Scenario.E3 (m - length pruned)
                  Scenario.async2 = Ok (fresh, Scenario.async2_padded)
                ∧ pool = pruned ++ fresh ∧ length pool = m)
    ∧ ((m <= length pruned)%nat →
       pool = pruned ∧ Scenario.async2_padded = Scenario.async2)
    ∧ (m = 4%nat → (∃ a b, base = [a; b]) →
       (∃ t, Some [0.25%float] = Some t ∧ existsb (all_eq t) base = true) →
       length pool = 4%nat).
Proof.
  apply (sampling_pool_is_pruned_then_padded (E:=Scenario.E3) None
           (Some [0.25%float]) Scenario.async2
           [[0.5]; [0.75]; [0.125]; [0.875]]%float Scenario.async2_padded).
  vm_compute. reflexivity.
Defined.

(** ** What the constructors check *)

Section Construction.
Context {E : Externals}.
Implicit Types s : DE E.

Lemma DE__init__Ok a ms xs :
  split_strategy (a_strategy a) = Ok (ms, xs) →
  ∃ s, DE__init__ E a = Ok s ∧ f (params s) = a_f a
       ∧ mutation_strategy (params s) = ms
       ∧ crossover_strategy (params s) = xs
       ∧ class_ (params s) = ClassDE.
Proof.
  intros H. unfold DE__init__. rewrite H. mok. eexists. split; [done|].
  simpl. done.
Qed.

(** C9 (amended).  At construction, an [async_strategy] outside the four
    known names fails (AsyncDE), and so does a strategy name without an
    underscore (IndexError, both classes).  Any name that splits in two
    is accepted, and so is a missing objective: these surface later, a
    missing objective as NotImplementedError at the first evaluation,
    an unknown mutation or crossover name as UnboundLocalError at the
    first mutation or crossover. *)
Theorem construction_checks (a : InitArgs) :
  (valid_async_strategy (a_async_strategy a) = false →
   is_ok (AsyncDE__init__ E a) = false)
  ∧ (∀ name, a_strategy a = Some name →
       (length (py_split "_" name) < 2)%nat →
       DE__init__ E a = Raise IndexError
       ∧ AsyncDE__init__ E a = Raise IndexError)
  ∧ (∀ ms xs, split_strategy (a_strategy a) = Ok (ms, xs) →
       ∃ s, DE__init__ E a = Ok s
            ∧ (a_f a = None →
               ∀ x fidelity,
                 f_objective E x fidelity s = Raise NotImplementedError)
            ∧ (known_mutation ms = false →
               ∀ current best alt_pop,
                 mutation E current best alt_pop s = Raise UnboundLocalError)
            ∧ (known_crossover xs = false →
               ∀ target mutant,
                 crossover E target mutant s = Raise UnboundLocalError)).
Proof.
  split_and!.
  - intros Hbad. unfold AsyncDE__init__.
    destruct (DE__init__ E a) as [s|e]; [|done]. cbn [mbind res_bind].
    destruct (split_strategy _) as [[ms xs]|e]; [|done]. cbn [mbind res_bind].
    unfold valid_async_strategy in Hbad. by rewrite Hbad.
  - intros name Hname Hlen.
    assert (DE__init__ E a = Raise IndexError) as Hde.
    { unfold DE__init__, split_strategy. rewrite Hname.
      destruct (py_split "_" name) as [|x [|y l]]; simpl in *; try lia; done. }
    split; [done|]. unfold AsyncDE__init__. by rewrite Hde.
  - intros ms xs Hsplit.
    destruct (DE__init__Ok a ms xs Hsplit) as (s & Hs & Hf & Hms & Hxs & Hcl).
    exists s. split_and!; try done.
    + intros Hnone x fid. unfold f_objective. by rewrite Hf, Hnone.
    + intros Hbad current best alt. unfold mutation. rewrite Hcl.
      unfold DE_mutation, mutation_via. rewrite Hms.
      unfold known_mutation in Hbad. destruct ms as [m|]; [|done].
      simpl in Hbad. simpl.
      repeat (let Hb := fresh "Hb" in
              apply orb_false_elim in Hbad as [Hb Hbad]; rewrite Hb).
      done.
    + intros Hbad target mutant. unfold crossover. rewrite Hxs.
      unfold known_crossover in Hbad. destruct xs as [x|]; [|done].
      simpl in Hbad. simpl.
      repeat (let Hb := fresh "Hb" in
              apply orb_false_elim in Hbad as [Hb Hbad]; rewrite Hb).
      done.
Qed.
End Construction.

(** C9, the claim as worded fails: both constructors accept a missing
    objective and the strategy name [foo_bar]. *)
Lemma misconfigured_instances_are_constructed :
  is_ok (DE__init__ Scenario.E3
           (Scenario.args_with None 3 "rand1_bin" "immediate")) = true
  ∧ is_ok (AsyncDE__init__ Scenario.E3
             (Scenario.args_with None 3 "rand1_bin" "immediate")) = true
  ∧ is_ok (DE__init__ Scenario.E3 (Scenario.args "foo_bar")) = true
  ∧ is_ok (AsyncDE__init__ Scenario.E3 (Scenario.args "foo_bar")) = true.
Proof. split_and!; vm_compute; reflexivity. Qed.

(** C9 (amended) at four argument lists: [async_strategy="sometimes"],
    [strategy="rand1"], no objective, and [strategy="foo_bar"]. *)
Lemma construction_checks_on_four_arguments :
  is_ok (AsyncDE__init__ Scenario.E3
           (Scenario.args_with (Some Scenario.f_coord) 3 "rand1_bin"
              "sometimes")) = false
  ∧ (DE__init__ Scenario.E3 (Scenario.args "rand1") = Raise IndexError
     ∧ AsyncDE__init__ Scenario.E3 (Scenario.args "rand1")
       = Raise IndexError)
  ∧ (∃ s, DE__init__ Scenario.E3
            (Scenario.args_with None 3 "rand1_bin" "immediate") = Ok s
          ∧ ∀ x fidelity,
              f_objective Scenario.E3 x fidelity s
              = Raise NotImplementedError)
  ∧ (∃ s, DE__init__ Scenario.E3 (Scenario.args "foo_bar") = Ok s
          ∧ (∀ current best alt_pop,
               mutation Scenario.E3 current best alt_pop s
               = Raise UnboundLocalError)
          ∧ (∀ target mutant,
               crossover Scenario.E3 target mutant s
               = Raise UnboundLocalError)).
Proof.
  split; [|split; [|split]].
  - apply (proj1 (construction_checks (E:=Scenario.E3)
                    (Scenario.args_with (Some Scenario.f_coord) 3
                       "rand1_bin" "sometimes"))).
    reflexivity.
  - apply (proj1 (proj2 (construction_checks (E:=Scenario.E3)
                           (Scenario.args "rand1"))) "rand1"%string).
    + reflexivity.
    + simpl. lia.
  - destruct (proj2 (proj2 (construction_checks (E:=Scenario.E3)
                              (Scenario.args_with None 3 "rand1_bin"
                                 "immediate")))
                (Some "rand1"%string) (Some "bin"%string) eq_refl)
      as (s & Hs & Hf & _).
    exists s. split; [exact Hs|]. apply Hf. reflexivity.
  - destruct (proj2 (proj2 (construction_checks (E:=Scenario.E3)
                              (Scenario.args "foo_bar")))
                (Some "foo"%string) (Some "bar"%string) eq_refl)
      as (s & Hs & _ & Hm & Hx).
    exists s. split; [exact Hs|]. split; [apply Hm|apply Hx]; reflexivity.
Defined.


(** ** Closed evaluations *)

(** C4 (the code departs from the claim).  The round trip
    [vector_to_configspace(configspace_to_vector(c))] is not exact on an
    Ordinal: over the five levels 0 .. 4 the configuration [{o: 3}] is
    encoded as [3/5 = 0.6]; decoding compares it with
    [np.arange(0, 1, 1/5)], whose entry 3 is [3 * 0.2 =
    0.6000000000000001], and so selects level 2. *)
Theorem ordinal_round_trip_drops_a_level (E : Externals) :
  configspace_to_vector E Scenario.ordinal5 Scenario.ordinal5_hps
    [("o"%string, VInt 3)] = Ok [(3 / 5)%float]
  ∧ np_arange 0 1 (1 / 5)
    = Ok [0; 1 / 5; 2 * (1 / 5); 3 * (1 / 5); 4 * (1 / 5)]%float
  ∧ (3 / 5 <? 3 * (1 / 5))%float = true
  ∧ vector_to_configspace E Scenario.ordinal5 [(3 / 5)%float]
    = Ok [("o"%string, VInt 2)].
Proof. repeat split; vm_compute; reflexivity. Qed.

(** C3 (the code departs from the claim).  [ask] asserts that
    [_ask_queue] is empty, but nothing ever appends to that list: on a
    fresh instance two calls of [ask] in a row both return, the second
    with the next member of the initial population. *)
Theorem second_ask_returns_a_trial :
  (self ← DE__init__ Scenario.E3 (Scenario.args "rand1_bin");
   '(first, self) ← ask Scenario.E3 None self;
   '(second, self) ← ask Scenario.E3 None self;
   Ok (first, second, _ask_queue self))
  = Ok ((CVector [0.25%float], 0%Z, 0%nat),
        (CVector [0.5%float], 1%Z, 1%nat), []).
Proof. vm_compute. reflexivity. Qed.

(** C6 (the code departs from the claim).  With the exponential
    crossover the target is a view of the population row, and the
    crossover writes the donor's genes into it.  Here the trial of
    index 0 is [[0.875]], its fitness 0.875 is above the parent's 0.25,
    the parent's fitness and id stay and its age drops from 10 to 9, but
    row 0 of the population no longer holds the parent [[0.25]]. *)
Theorem exp_crossover_overwrites_the_losing_parent :
  (self ← DE__init__ Scenario.E3 (Scenario.args "rand1_exp");
   '(_, before) ← init_eval_pop Scenario.E3 None true
                    (reset Scenario.E3 true self);
   '((_, _, history'), after) ←
     evolve_generation Scenario.E3 None None None before;
   Ok (population before, fitness before, age before,
       head history',
       (population after, population_ids after, fitness after,
        age after)))
  = Ok (Some [[0.25]; [0.5]; [0.75]], Some [0.25; 0.5; 0.75],
        Some [10; 10; 10],
        Some ([0.875], 0.875, 0, []),
        (Some [[0.875]; [0.75]; [0.875]], Some [0; 1; 2]%Z,
         Some [0.25; 0.5; 0.75], Some [9; 9; 9]))%float.
Proof. vm_compute. reflexivity. Qed.

(** C1 (the code departs from the claim).  With a ConfigSpace attached,
    [tell] stores the re-encoded configuration where [run] stores the
    trial vector.  For one integer hyperparameter in 0 .. 10, the
    objective [f(x) = x], three individuals sampled as 5, 8, 9 and the
    scripted draws of [Scenario.tape_int], the trial [[0.55]] wins at
    index 1 in the first generation: [run] keeps [[0.55]], [tell] keeps
    [[0.6]], and the second generation then finds 3 under [run] and 4
    under ask/tell. *)
Theorem ask_tell_trajectory_differs_from_run :
  run_traj Scenario.E_int Scenario.args_int 2
  = Ok [5; 5; 5; 5; 5; 5; 3; 3; 3]%float
  ∧ ask_tell_traj Scenario.E_int Scenario.args_int Scenario.f_int 9
    = Ok [5; 5; 5; 5; 5; 5; 4; 4; 4]%float.
Proof. split; vm_compute; reflexivity. Qed.
